(** * The SMA Python SDK client: request execution, token lifecycle, operations

    A shallow embedding of [packages/backend/src/sdks/python/sma_sdk.py].
    The client talks to the outside through [session.request], [time.sleep],
    [datetime.now] and the request-id generator.  The answers of the network
    are given as a script that the run consumes in order; what the client
    does to the outside is recorded in a chronological trace. *)

From Stdlib Require Import List String Ascii ZArith QArith Bool Lia DecimalString.
Import ListNotations.
Local Open Scope string_scope.
Local Open Scope Z_scope.
Set Warnings "-register-all".

(** ** Dynamic values

    Decoded JSON, which is also what the attributes of [AuthTokens] and
    [SMAError] hold at run time: Python does not enforce the annotations.
    [JNull] is [None]; an object is the decoded [dict], keys distinct. *)

Inductive json : Type :=
| JNull
| JBool (b : bool)
| JNum (n : Z)
| JStr (s : string)
| JArr (items : list json)
| JObj (members : list (string * json)).

(** Python truth value of a decoded value. *)
Definition truthy (v : json) : bool :=
  match v with
  | JNull => false
  | JBool b => b
  | JNum n => negb (n =? 0)
  | JStr s => negb (s =? EmptyString)%string
  | JArr l => match l with [] => false | _ => true end
  | JObj m => match m with [] => false | _ => true end
  end.

Fixpoint assoc (k : string) (m : list (string * json)) : option json :=
  match m with
  | [] => None
  | (k', v) :: m' => if (k' =? k)%string then Some v else assoc k m'
  end.

(** ** Strings *)

Fixpoint lstrip (c : ascii) (s : string) : string :=
  match s with
  | EmptyString => EmptyString
  | String a s' => if Ascii.eqb a c then lstrip c s' else s
  end.

Fixpoint rstrip (c : ascii) (s : string) : string :=
  match s with
  | EmptyString => EmptyString
  | String a s' =>
      match rstrip c s' with
      | EmptyString => if Ascii.eqb a c then EmptyString else String a EmptyString
      | r => String a r
      end
  end.

Definition str_of_int (n : Z) : string := NilZero.string_of_int (Z.to_int n).

(** [n] slashes. *)
Fixpoint slashes (n : nat) : string :=
  match n with
  | O => EmptyString
  | S n' => String "/" (slashes n')
  end.

(** ** Records of the SDK *)

(** [SMAConfig].  [retry_delay] is a number of seconds: a finite float or
    an int, kept as the rational it denotes ([inf] and [nan] are not
    covered); [retry_attempts] is an int of any sign. *)
Record SMAConfig : Type := {
  base_url : string;
  api_key : option string;
  timeout : Z;
  retry_attempts : Z;
  retry_delay : Q;
  debug : bool
}.

Definition default_config : SMAConfig :=
  {| base_url := "https://api.sma-platform.com/api"; api_key := None;
     timeout := 30; retry_attempts := 3; retry_delay := 1%Q; debug := false |}.

(** [refresh_token_of] is the attribute [refresh_token], named apart from
    the method [refresh_token]; [expires_at] is a clock reading in
    microseconds, [None] when unset.  The client keeps one such object and
    assigns to its attributes in place; nothing below looks at an alias of
    it, so the pair is kept by value. *)
Record AuthTokens : Type := {
  access_token : json;
  refresh_token_of : json;
  expires_at : option Z
}.

Record SMAError : Type := {
  message : json;
  code : json;
  status_code : option Z;
  retryable : json;
  retry_after : json;
  request_id : json;
  details : json
}.

(** [details or {}] in [SMAError.__init__]. *)
Definition or_empty (v : json) : json := if truthy v then v else JObj [].

(** [SMAError(message, code)] with every other argument defaulted. *)
Definition sma_error (msg cd : string) : SMAError :=
  {| message := JStr msg; code := JStr cd; status_code := None;
     retryable := JBool false; retry_after := JNull; request_id := JNull;
     details := or_empty JNull |}.

(** Exceptions the client meets.  [ERequest] is
    [requests.exceptions.RequestException]; [EOther] stands for the built-in
    ones ([AttributeError], [KeyError], [TypeError], [ValueError]).  All of
    them are subclasses of [Exception]. *)
Inductive exn : Type :=
| ESMA (e : SMAError)
| ERequest (msg : string)
| EOther (kind : string).

(** Result of running a piece of the client: a value, a raised exception, or
    [Starved] when the run asked the network for more answers than the
    script holds.  [Starved] is not a Python exception and no handler
    catches it. *)
Inductive outcome (A : Type) : Type :=
| Ret (a : A)
| Exc (e : exn)
| Starved.
Arguments Ret {A} a.
Arguments Exc {A} e.
Arguments Starved {A}.

Definition bind {A B} (x : outcome A) (f : A -> outcome B) : outcome B :=
  match x with
  | Ret a => f a
  | Exc e => Exc e
  | Starved => Starved
  end.

Notation "x <- c ;; k" := (bind c (fun x => k))
  (at level 61, c at next level, right associativity).

(** [v.get(k)], [v.get(k, default)] and [v[k]] on a decoded value. *)
Definition py_get_default (v : json) (k : string) (dflt : json) : outcome json :=
  match v with
  | JObj m => Ret (match assoc k m with Some x => x | None => dflt end)
  | _ => Exc (EOther "AttributeError")
  end.

Definition py_get (v : json) (k : string) : outcome json := py_get_default v k JNull.

Definition py_item (v : json) (k : string) : outcome json :=
  match v with
  | JObj m => match assoc k m with Some x => Ret x | None => Exc (EOther "KeyError") end
  | _ => Exc (EOther "TypeError")
  end.

(** ** The outside world *)

(** What [session.request] hands back: [r.status_code], [r.text] and the
    value of [r.json()], [None] when decoding raises [JSONDecodeError]. *)
Record Response : Type := {
  r_status_code : Z;
  r_text : string;
  r_json : option json
}.

(** [Response.ok]: [raise_for_status] complains exactly for 400..599. *)
Definition ok (r : Response) : bool :=
  negb ((400 <=? r_status_code r) && (r_status_code r <? 600)).

(** One answer of the network to one [session.request]: the call raises a
    [RequestException] (connection failure, timeout, retries of the adapter
    used up) or returns a response. *)
Inductive reply : Type :=
| Refused (msg : string)
| Answered (r : Response).

(** The session of [__init__] mounts an adapter with
    [Retry(total=retry_attempts, backoff_factor=retry_delay,
    status_forcelist=[429, 500, 502, 503, 504])] for every method the SDK
    uses.  The adapter repeats a request answered with one of these
    statuses, and when its retries are used up [session.request] raises
    [RetryError], a [RequestException]: a response with such a status is
    never handed back.  A script describes this session when every reply in
    it is [handed_back]; statements over all scripts hold of these as
    well. *)
Definition status_forcelist : list Z := [429; 500; 502; 503; 504].

Definition handed_back (rep : reply) : bool :=
  match rep with
  | Refused _ => true
  | Answered r => negb (existsb (Z.eqb (r_status_code r)) status_forcelist)
  end.

Record Request : Type := {
  rq_method : string;
  rq_url : string;
  rq_json : option json;
  rq_params : option json;
  rq_headers : list (string * string);
  rq_timeout : Z
}.

Inductive event : Type :=
| Sent (rq : Request)
| Slept (d : Q).

(** The SDK instance: [self.config], [self.tokens], and the chronological
    record of what it did to the outside. *)
Record SDK : Type := {
  config : SMAConfig;
  tokens : option AuthTokens;
  trace : list event
}.

Definition new_client (cfg : SMAConfig) : SDK :=
  {| config := cfg; tokens := None; trace := [] |}.

Definition record_event (ev : event) (self : SDK) : SDK :=
  {| config := config self; tokens := tokens self; trace := trace self ++ [ev] |}.

Definition with_tokens (t : option AuthTokens) (self : SDK) : SDK :=
  {| config := config self; tokens := t; trace := trace self |}.

(** [headers[k] = v] on a dict kept in insertion order. *)
Fixpoint dict_set (k v : string) (h : list (string * string)) : list (string * string) :=
  match h with
  | [] => [(k, v)]
  | (k', v') :: h' => if (k' =? k)%string then (k, v) :: h' else (k', v') :: dict_set k v h'
  end.

Fixpoint header (k : string) (h : list (string * string)) : option string :=
  match h with
  | [] => None
  | (k', v) :: h' => if (k' =? k)%string then Some v else header k h'
  end.

Definition fifteen_minutes : Z := 15 * 60 * 1000000.

(** The parts of the run-time the SDK reads but does not control.  The
    position in the trace stands for "when": [clock n] is what
    [datetime.now()] reads (in microseconds) and [gen_request_id n] what
    [_generate_request_id] returns (it mixes [time.time()] and [uuid4])
    after [n] recorded events.  [py_str] is the formatting of a value inside
    an f-string; only its value on strings is fixed here.

    Two limits of the interpreter show in the retry path.
    [delay_overflows base k] says that [retry_delay * (2 ** retry_count)]
    with [retry_delay = base] and [retry_count = k] ends in [OverflowError]:
    [2 ** k] no longer converts to a float ([k] from 1024 up), or
    [time.sleep] is handed a delay outside what its clock type holds (2^63
    nanoseconds in CPython, in either direction).  [stack_exhausted n k]
    says that the recursive call of retry [k], made after [n] recorded
    events, hits the recursion limit and raises [RecursionError]; how soon
    that is depends on how deep the caller already is.  Both are left to the
    run-time: nothing is assumed about them. *)
Record Env : Type := {
  clock : nat -> Z;
  gen_request_id : nat -> string;
  py_str : json -> string;
  py_str_string : forall s, py_str (JStr s) = s;
  delay_overflows : Q -> nat -> bool;
  stack_exhausted : nat -> nat -> bool
}.

(** ** Request execution *)

Section Client.

Variable E : Env.

Definition build_url (self : SDK) (endpoint : string) : string :=
  rstrip "/" (base_url (config self)) ++ "/" ++ lstrip "/" endpoint.

Definition api_key_headers (self : SDK) : list (string * string) :=
  match api_key (config self) with
  | Some k => if negb (k =? EmptyString)%string then [("X-API-Key", k)] else []
  | None => []
  end.

(** The authentication part of the headers of [_make_request]. *)
Definition auth_headers (self : SDK) : list (string * string) :=
  match tokens self with
  | Some t =>
      if truthy (access_token t)
      then [("Authorization", "Bearer " ++ py_str E (access_token t))]
      else api_key_headers self
  | None => api_key_headers self
  end.

Definition initial_headers (self : SDK) : list (string * string) :=
  ("X-Request-ID", gen_request_id E (List.length (trace self))) :: auth_headers self.

(** [self.tokens and self.tokens.refresh_token]. *)
Definition can_refresh (self : SDK) : bool :=
  match tokens self with
  | Some t => truthy (refresh_token_of t)
  | None => false
  end.

(** [response.json()], with the payload synthesized when decoding fails. *)
Definition parse_body (r : Response) : json :=
  match r_json r with
  | Some v => v
  | None => JObj [("success", JBool false); ("error", JObj [("message", JStr (r_text r))])]
  end.

(** The tail of [_make_request]: parse the response, raise the mapped error
    when the status is a failure, else return the decoded body. *)
Definition handle_response (r : Response) : outcome json :=
  let response_data := parse_body r in
  if negb (ok r) then
    error_data <- py_get_default response_data "error" (JObj []) ;;
    m <- py_get_default error_data "message" (JStr ("HTTP " ++ str_of_int (r_status_code r))) ;;
    c <- py_get_default error_data "code" (JStr "HTTP_ERROR") ;;
    rt <- py_get_default error_data "retryable" (JBool false) ;;
    ra <- py_get error_data "retryAfter" ;;
    ri <- py_get error_data "requestId" ;;
    d <- py_get error_data "details" ;;
    Exc (ESMA {| message := m; code := c; status_code := Some (r_status_code r);
                 retryable := rt; retry_after := ra; request_id := ri;
                 details := or_empty d |})
  else Ret response_data.

(** [not response.get("success") or not response.get("data")]. *)
Definition lacks_success_or_data (response : json) : outcome bool :=
  s <- py_get response "success" ;;
  if negb (truthy s) then Ret true
  else d <- py_get response "data" ;; Ret (negb (truthy d)).

(** [not response.get("success")]. *)
Definition lacks_success (response : json) : outcome bool :=
  s <- py_get response "success" ;; Ret (negb (truthy s)).

Definition network_error (msg : string) : SMAError :=
  {| message := JStr ("Network error: " ++ msg); code := JStr "NETWORK_ERROR";
     status_code := None; retryable := JBool true; retry_after := JNull;
     request_id := JNull; details := or_empty JNull |}.

(** What [refresh_token] does with the answer of [/auth/refresh]: the two
    attribute assignments on the token object held by the client. *)
Definition store_refreshed (response : json) (self : SDK) : outcome AuthTokens * SDK :=
  match (bad <- lacks_success_or_data response ;;
         if (bad : bool) then Exc (ESMA (sma_error "Token refresh failed" "TOKEN_REFRESH_FAILED"))
         else d <- py_item response "data" ;; py_item d "token") with
  | Ret tok =>
      match tokens self with
      | Some t =>
          let t' := {| access_token := tok;
                       refresh_token_of := refresh_token_of t;
                       expires_at := Some (clock E (List.length (trace self)) + fifteen_minutes) |} in
          (Ret t', with_tokens (Some t') self)
      | None => (Exc (EOther "AttributeError"), self)
      end
  | Exc e => (Exc e, self)
  | Starved => (Starved, self)
  end.

(** [refresh_token], over the request function it calls ([mk] is
    [self._make_request] on the script that is left, [net]). *)
Definition refresh_token_with
    (mk : SDK -> string -> string -> option json -> option json -> nat ->
          outcome json * SDK * list reply)
    (net : list reply) (self : SDK) : outcome AuthTokens * SDK * list reply :=
  match tokens self with
  | Some t =>
      if truthy (refresh_token_of t) then
        match mk self "POST" "/auth/refresh"
                 (Some (JObj [("refreshToken", refresh_token_of t)])) None 0%nat with
        | (Ret response, s, n) => (store_refreshed response s, n)
        | (Exc e, s, n) => (Exc e, s, n)
        | (Starved, s, n) => (Starved, s, n)
        end
      else (Exc (ESMA (sma_error "No refresh token available" "NO_REFRESH_TOKEN")), self, net)
  | None => (Exc (ESMA (sma_error "No refresh token available" "NO_REFRESH_TOKEN")), self, net)
  end.

(** The request [session.request] is called with. *)
Definition request_for (self : SDK) (method endpoint : string)
    (data params : option json) (headers : list (string * string)) : Request :=
  {| rq_method := method; rq_url := build_url self endpoint; rq_json := data;
     rq_params := params; rq_headers := headers; rq_timeout := timeout (config self) |}.

(** The client after the first [session.request] of a [_make_request]. *)
Definition attempt (self : SDK) (method endpoint : string) (data params : option json) : SDK :=
  record_event (Sent (request_for self method endpoint data params (initial_headers self))) self.

(** [_make_request].  The script [net] holds the answers of the following
    [session.request] calls.  Debug printing is left out.

    In the retry path the delay is a float times a power of two, which is
    exact, so it is kept as a rational; [time.sleep] raises [OverflowError]
    for a delay it cannot hold, before it looks at the sign, and
    [ValueError] for a negative one; the recursive call raises
    [RecursionError] at the recursion limit, placed here at the call
    itself, before the nested call records anything.  The nesting of
    refreshes in the 401 handling is not bounded here: in the interpreter
    the recursion limit ends it, and the [except Exception] of the handler
    takes that [RecursionError] for a failed refresh. *)
Fixpoint _make_request (net : list reply) (self : SDK) (method endpoint : string)
    (data params : option json) (retry_count : nat) {struct net}
    : outcome json * SDK * list reply :=
  let headers := initial_headers self in
  let request := request_for self method endpoint data params in
  match net with
  | [] => (Starved, self, [])
  | Refused msg :: net' =>
      let self := attempt self method endpoint data params in
      if Z.of_nat retry_count <? retry_attempts (config self) then
        let delay := (retry_delay (config self) * inject_Z (2 ^ Z.of_nat retry_count))%Q in
        if delay_overflows E (retry_delay (config self)) retry_count then
          (Exc (EOther "OverflowError"), self, net')
        else if Qle_bool 0 delay then
          let self := record_event (Slept delay) self in
          if stack_exhausted E (List.length (trace self)) retry_count then
            (Exc (EOther "RecursionError"), self, net')
          else _make_request net' self method endpoint data params (S retry_count)
        else (Exc (EOther "ValueError"), self, net')
      else (Exc (ESMA (network_error msg)), self, net')
  | Answered response :: net' =>
      let self := attempt self method endpoint data params in
      if (r_status_code response =? 401) && can_refresh self then
        match refresh_token_with (_make_request net') net' self with
        | (Ret _, s, n) =>
            match tokens s with
            | Some t =>
                let headers :=
                  dict_set "Authorization" ("Bearer " ++ py_str E (access_token t)) headers in
                let s := record_event (Sent (request headers)) s in
                match n with
                | [] => (Starved, s, [])
                | Refused _ :: n' => (handle_response response, with_tokens None s, n')
                | Answered response' :: n' => (handle_response response', s, n')
                end
            | None => (handle_response response, with_tokens None s, n)
            end
        | (Exc _, s, n) => (handle_response response, with_tokens None s, n)
        | (Starved, s, n) => (Starved, s, n)
        end
      else (handle_response response, self, net')
  end.

Definition refresh_token (net : list reply) (self : SDK)
    : outcome AuthTokens * SDK * list reply :=
  refresh_token_with (_make_request net) net self.

End Client.

(** ** Public operations *)

(** An instance of one of the SDK's dataclasses. *)
Record instance : Type := {
  cls : string;
  attrs : list (string * json)
}.

(** What the public methods return. *)
Inductive value : Type :=
| VNone
| VJson (v : json)
| VTokens (t : AuthTokens)
| VInstance (o : instance)
| VSession (user : instance) (t : AuthTokens).

Definition user_fields : list string :=
  ["id"; "email"; "name"; "created_at"; "updated_at"].
Definition post_fields : list string :=
  ["id"; "content"; "images"; "hashtags"; "platforms"; "scheduled_time"; "status";
   "source"; "platform_posts"; "created_at"; "updated_at"].
Definition connection_fields : list string :=
  ["id"; "platform"; "platform_user_id"; "platform_username"; "is_active";
   "created_at"; "updated_at"].
Definition analytics_fields : list string :=
  ["total_posts"; "published_posts"; "failed_posts"; "scheduled_posts";
   "platform_breakdown"; "success_rate"; "average_posts_per_day"].

(** Building a dataclass without defaults from the mapping [d] passed as
    keyword arguments: [d] must be a mapping whose keys are exactly the
    field names. *)
Definition construct (name : string) (fields : list string) (d : json) : outcome instance :=
  match d with
  | JObj m =>
      if forallb (fun kv => existsb (String.eqb (fst kv)) fields) m
         && forallb (fun f => match assoc f m with Some _ => true | None => false end) fields
      then Ret {| cls := name;
                  attrs := map (fun f => (f, match assoc f m with Some x => x | None => JNull end))
                               fields |}
      else Exc (EOther "TypeError")
  | _ => Exc (EOther "TypeError")
  end.

(** Continue after a request with the non-network rest of a method. *)
Definition and_then {A B} (x : outcome A * SDK * list reply)
    (k : A -> SDK -> outcome B * SDK) : outcome B * SDK * list reply :=
  match x with
  | (Ret a, s, n) => let (b, s') := k a s in (b, s', n)
  | (Exc e, s, n) => (Exc e, s, n)
  | (Starved, s, n) => (Starved, s, n)
  end.

(** [params[k] = v] guarded by [if v:] on an optional string. *)
Definition opt_param (k : string) (v : option string) : list (string * json) :=
  match v with
  | Some s => if negb (s =? EmptyString)%string then [(k, JStr s)] else []
  | None => []
  end.

Section Operations.

Variable E : Env.

(** The common tail of [login] and [register]. *)
Definition open_session (failure : SMAError) (response : json) (s : SDK)
    : outcome value * SDK :=
  match (bad <- lacks_success_or_data response ;;
         if (bad : bool) then Exc (ESMA failure)
         else d <- py_item response "data" ;;
              tok <- py_item d "token" ;;
              rt <- py_get d "refreshToken" ;;
              Ret (d, tok, rt)) with
  | Ret (d, tok, rt) =>
      let t := {| access_token := tok; refresh_token_of := rt;
                  expires_at := Some (clock E (List.length (trace s)) + fifteen_minutes) |} in
      (ud <- py_item d "user" ;; u <- construct "User" user_fields ud ;; Ret (VSession u t),
       with_tokens (Some t) s)
  | Exc e => (Exc e, s)
  | Starved => (Starved, s)
  end.

Definition login (net : list reply) (self : SDK) (email password : string) :=
  and_then (_make_request E net self "POST" "/auth/login"
              (Some (JObj [("email", JStr email); ("password", JStr password)])) None 0%nat)
           (open_session (sma_error "Login failed" "LOGIN_FAILED")).

Definition register (net : list reply) (self : SDK) (email password name : string) :=
  and_then (_make_request E net self "POST" "/auth/register"
              (Some (JObj [("email", JStr email); ("password", JStr password);
                           ("name", JStr name)])) None 0%nat)
           (open_session (sma_error "Registration failed" "REGISTRATION_FAILED")).

Definition set_tokens (self : SDK) (t : AuthTokens) : SDK := with_tokens (Some t) self.

(** [try: self._make_request(...) finally: self.tokens = None]. *)
Definition logout (net : list reply) (self : SDK) : outcome value * SDK * list reply :=
  match _make_request E net self "POST" "/auth/logout" None None 0%nat with
  | (Ret _, s, n) => (Ret VNone, with_tokens None s, n)
  | (Exc e, s, n) => (Exc e, with_tokens None s, n)
  | (Starved, s, n) => (Starved, with_tokens None s, n)
  end.

(** Tails of the methods that check [success] and [data]. *)
Definition data_of (failure : SMAError) (response : json) : outcome json :=
  bad <- lacks_success_or_data response ;;
  if (bad : bool) then Exc (ESMA failure) else py_item response "data".

Definition built (failure : SMAError) (name : string) (fields : list string)
    (response : json) (s : SDK) : outcome value * SDK :=
  (d <- data_of failure response ;; o <- construct name fields d ;; Ret (VInstance o), s).

Definition plain (failure : SMAError) (response : json) (s : SDK) : outcome value * SDK :=
  (d <- data_of failure response ;; Ret (VJson d), s).

Definition get_posts (net : list reply) (self : SDK) (page limit : Z)
    (status platform : option string) (sort order : string) :=
  let params := JObj ([("page", JNum page); ("limit", JNum limit);
                       ("sort", JStr sort); ("order", JStr order)]
                      ++ opt_param "status" status ++ opt_param "platform" platform) in
  and_then (_make_request E net self "GET" "/posts" None (Some params) 0%nat)
           (fun response s =>
              (bad <- lacks_success response ;;
               if (bad : bool) then Exc (ESMA (sma_error "Failed to get posts" "POSTS_FETCH_FAILED"))
               else Ret (VJson response), s)).

Definition get_post (net : list reply) (self : SDK) (post_id : string) :=
  and_then (_make_request E net self "GET" ("/posts/" ++ post_id) None None 0%nat)
           (built (sma_error "Post not found" "POST_NOT_FOUND") "Post" post_fields).

Definition create_post (net : list reply) (self : SDK) (post_data : json) :=
  and_then (_make_request E net self "POST" "/posts" (Some post_data) None 0%nat)
           (built (sma_error "Failed to create post" "POST_CREATION_FAILED") "Post" post_fields).

Definition update_post (net : list reply) (self : SDK) (post_id : string) (post_data : json) :=
  and_then (_make_request E net self "PUT" ("/posts/" ++ post_id) (Some post_data) None 0%nat)
           (built (sma_error "Failed to update post" "POST_UPDATE_FAILED") "Post" post_fields).

Definition delete_post (net : list reply) (self : SDK) (post_id : string) :=
  and_then (_make_request E net self "DELETE" ("/posts/" ++ post_id) None None 0%nat)
           (fun response s =>
              (bad <- lacks_success response ;;
               if (bad : bool)
               then Exc (ESMA (sma_error "Failed to delete post" "POST_DELETION_FAILED"))
               else Ret VNone, s)).

Definition publish_post (net : list reply) (self : SDK) (post_id : string) :=
  and_then (_make_request E net self "POST" ("/posts/" ++ post_id ++ "/publish") None None 0%nat)
           (plain (sma_error "Failed to publish post" "POST_PUBLISH_FAILED")).

Definition create_bulk_posts (net : list reply) (self : SDK) (posts : list json) :=
  and_then (_make_request E net self "POST" "/posts/bulk"
              (Some (JObj [("posts", JArr posts)])) None 0%nat)
           (plain (sma_error "Failed to create bulk posts" "BULK_POST_CREATION_FAILED")).

Definition get_analytics (net : list reply) (self : SDK)
    (start_date end_date platform : option string) :=
  let params := JObj (opt_param "startDate" start_date ++ opt_param "endDate" end_date
                      ++ opt_param "platform" platform) in
  and_then (_make_request E net self "GET" "/posts/analytics" None (Some params) 0%nat)
           (built (sma_error "Failed to get analytics" "ANALYTICS_FETCH_FAILED")
                  "Analytics" analytics_fields).

Definition connect_platform (net : list reply) (self : SDK)
    (platform auth_code redirect_uri : string) :=
  and_then (_make_request E net self "POST" ("/oauth/connect/" ++ platform)
              (Some (JObj [("code", JStr auth_code); ("redirectUri", JStr redirect_uri)]))
              None 0%nat)
           (fun response s =>
              (d <- data_of (sma_error "Failed to connect platform" "PLATFORM_CONNECTION_FAILED")
                            response ;;
               pc <- py_item d "platformConnection" ;;
               o <- construct "PlatformConnection" connection_fields pc ;;
               Ret (VInstance o), s)).

Definition disconnect_platform (net : list reply) (self : SDK) (platform : string) :=
  and_then (_make_request E net self "DELETE" ("/oauth/disconnect/" ++ platform) None None 0%nat)
           (fun response s =>
              (bad <- lacks_success response ;;
               if (bad : bool)
               then Exc (ESMA (sma_error "Failed to disconnect platform"
                                         "PLATFORM_DISCONNECTION_FAILED"))
               else Ret VNone, s)).

Definition check_health (net : list reply) (self : SDK) :=
  and_then (_make_request E net self "GET" "/health" None None 0%nat)
           (plain (sma_error "Health check failed" "HEALTH_CHECK_FAILED")).

Definition get_current_user (net : list reply) (self : SDK) :=
  and_then (_make_request E net self "GET" "/auth/me" None None 0%nat)
           (built (sma_error "Failed to get user info" "USER_INFO_FAILED") "User" user_fields).

End Operations.

(** ** The public operations as data

    A call of a public method with its arguments, so that statements can
    range over "every operation". *)

Inductive operation : Type :=
| OpLogin (email password : string)
| OpRegister (email password name : string)
| OpRefreshToken
| OpLogout
| OpGetPosts (page limit : Z) (status platform : option string) (sort order : string)
| OpGetPost (post_id : string)
| OpCreatePost (post_data : json)
| OpUpdatePost (post_id : string) (post_data : json)
| OpDeletePost (post_id : string)
| OpPublishPost (post_id : string)
| OpCreateBulkPosts (posts : list json)
| OpGetAnalytics (start_date end_date platform : option string)
| OpConnectPlatform (platform auth_code redirect_uri : string)
| OpDisconnectPlatform (platform : string)
| OpCheckHealth
| OpGetCurrentUser.

Definition perform (E : Env) (op : operation) (net : list reply) (self : SDK)
    : outcome value * SDK * list reply :=
  match op with
  | OpLogin e p => login E net self e p
  | OpRegister e p n => register E net self e p n
  | OpRefreshToken => and_then (refresh_token E net self) (fun t s => (Ret (VTokens t), s))
  | OpLogout => logout E net self
  | OpGetPosts pg l st pl so o => get_posts E net self pg l st pl so o
  | OpGetPost i => get_post E net self i
  | OpCreatePost d => create_post E net self d
  | OpUpdatePost i d => update_post E net self i d
  | OpDeletePost i => delete_post E net self i
  | OpPublishPost i => publish_post E net self i
  | OpCreateBulkPosts ps => create_bulk_posts E net self ps
  | OpGetAnalytics s e p => get_analytics E net self s e p
  | OpConnectPlatform p c r => connect_platform E net self p c r
  | OpDisconnectPlatform p => disconnect_platform E net self p
  | OpCheckHealth => check_health E net self
  | OpGetCurrentUser => get_current_user E net self
  end.

(** The error code each method raises on a rejected envelope ([logout] reads
    no envelope), and whether the method looks at [data] besides [success]. *)
Definition failure_code (op : operation) : option string :=
  match op with
  | OpLogin _ _ => Some "LOGIN_FAILED"
  | OpRegister _ _ _ => Some "REGISTRATION_FAILED"
  | OpRefreshToken => Some "TOKEN_REFRESH_FAILED"
  | OpLogout => None
  | OpGetPosts _ _ _ _ _ _ => Some "POSTS_FETCH_FAILED"
  | OpGetPost _ => Some "POST_NOT_FOUND"
  | OpCreatePost _ => Some "POST_CREATION_FAILED"
  | OpUpdatePost _ _ => Some "POST_UPDATE_FAILED"
  | OpDeletePost _ => Some "POST_DELETION_FAILED"
  | OpPublishPost _ => Some "POST_PUBLISH_FAILED"
  | OpCreateBulkPosts _ => Some "BULK_POST_CREATION_FAILED"
  | OpGetAnalytics _ _ _ => Some "ANALYTICS_FETCH_FAILED"
  | OpConnectPlatform _ _ _ => Some "PLATFORM_CONNECTION_FAILED"
  | OpDisconnectPlatform _ => Some "PLATFORM_DISCONNECTION_FAILED"
  | OpCheckHealth => Some "HEALTH_CHECK_FAILED"
  | OpGetCurrentUser => Some "USER_INFO_FAILED"
  end.

Definition reads_data (op : operation) : bool :=
  match op with
  | OpLogout | OpGetPosts _ _ _ _ _ _ | OpDeletePost _ | OpDisconnectPlatform _ => false
  | _ => true
  end.

(** Whether the method gets as far as its request: only [refresh_token]
    has a check in front of it. *)
Definition reaches_request (op : operation) (self : SDK) : bool :=
  match op with
  | OpRefreshToken => can_refresh self
  | _ => true
  end.

(** The request a method hands to [_make_request]: method, endpoint, body
    and query parameters. *)
Definition request_of (op : operation) (self : SDK)
    : string * string * option json * option json :=
  match op with
  | OpLogin e p =>
      ("POST", "/auth/login", Some (JObj [("email", JStr e); ("password", JStr p)]), None)
  | OpRegister e p n =>
      ("POST", "/auth/register",
       Some (JObj [("email", JStr e); ("password", JStr p); ("name", JStr n)]), None)
  | OpRefreshToken =>
      ("POST", "/auth/refresh",
       Some (JObj [("refreshToken",
                    match tokens self with Some t => refresh_token_of t | None => JNull end)]),
       None)
  | OpLogout => ("POST", "/auth/logout", None, None)
  | OpGetPosts pg l st pl so o =>
      ("GET", "/posts", None,
       Some (JObj ([("page", JNum pg); ("limit", JNum l); ("sort", JStr so); ("order", JStr o)]
                   ++ opt_param "status" st ++ opt_param "platform" pl)))
  | OpGetPost i => ("GET", "/posts/" ++ i, None, None)
  | OpCreatePost d => ("POST", "/posts", Some d, None)
  | OpUpdatePost i d => ("PUT", "/posts/" ++ i, Some d, None)
  | OpDeletePost i => ("DELETE", "/posts/" ++ i, None, None)
  | OpPublishPost i => ("POST", "/posts/" ++ i ++ "/publish", None, None)
  | OpCreateBulkPosts ps => ("POST", "/posts/bulk", Some (JObj [("posts", JArr ps)]), None)
  | OpGetAnalytics s e p =>
      ("GET", "/posts/analytics", None,
       Some (JObj (opt_param "startDate" s ++ opt_param "endDate" e ++ opt_param "platform" p)))
  | OpConnectPlatform p c r =>
      ("POST", "/oauth/connect/" ++ p,
       Some (JObj [("code", JStr c); ("redirectUri", JStr r)]), None)
  | OpDisconnectPlatform p => ("DELETE", "/oauth/disconnect/" ++ p, None, None)
  | OpCheckHealth => ("GET", "/health", None, None)
  | OpGetCurrentUser => ("GET", "/auth/me", None, None)
  end.

(** The error a failure response is mapped to, given the [error] member
    [err] of the decoded body. *)
Definition mapped_error (r : Response) (err : list (string * json)) : SMAError :=
  {| message := match assoc "message" err with
                | Some x => x
                | None => JStr ("HTTP " ++ str_of_int (r_status_code r))
                end;
     code := match assoc "code" err with Some x => x | None => JStr "HTTP_ERROR" end;
     status_code := Some (r_status_code r);
     retryable := match assoc "retryable" err with Some x => x | None => JBool false end;
     retry_after := match assoc "retryAfter" err with Some x => x | None => JNull end;
     request_id := match assoc "requestId" err with Some x => x | None => JNull end;
     details := or_empty (match assoc "details" err with Some x => x | None => JNull end) |}.

(** [body.get(k)] on the members of a decoded object. *)
Definition member (k : string) (body : list (string * json)) : json :=
  match assoc k body with Some v => v | None => JNull end.

(** Two token states with the same refresh token (or both empty). *)
Definition same_refresh (a b : option AuthTokens) : Prop :=
  match a, b with
  | Some x, Some y => refresh_token_of x = refresh_token_of y
  | None, None => True
  | _, _ => False
  end.

(** ** Reading a trace *)

Definition requests (tr : list event) : list Request :=
  flat_map (fun ev => match ev with Sent rq => [rq] | Slept _ => [] end) tr.

Definition sleeps (tr : list event) : list Q :=
  flat_map (fun ev => match ev with Sent _ => [] | Slept d => [d] end) tr.

(** Requests of a trace that went to a given URL. *)
Definition requests_to (u : string) (tr : list event) : list Request :=
  filter (fun rq => (rq_url rq =? u)%string) (requests tr).

(** The delays the backoff prescribes before reissues [k+1 .. k+n]. *)
Fixpoint backoff (base : Q) (k : nat) (n : nat) : list Q :=
  match n with
  | O => []
  | S n' => (base * inject_Z (2 ^ Z.of_nat k))%Q :: backoff base (S k) n'
  end.

(** [s] is a later state of the client [self]: same configuration, and
    the trace of [s] continues the trace of [self]. *)
Definition extends (self s : SDK) : Prop :=
  config s = config self /\ exists new, trace s = (trace self ++ new)%list.

(** The [Authorization] headers of the requests of a trace, in order. *)
Definition authorizations (tr : list event) : list (option string) :=
  map (fun rq => header "Authorization" (rq_headers rq)) (requests tr).

(** The API key a configuration provides, if any. *)
Definition configured_key (cfg : SMAConfig) : option string :=
  match api_key cfg with
  | Some k => if negb (k =? EmptyString)%string then Some k else None
  | None => None
  end.

(** A request carries no bearer token: at most the API key of the
    configuration. *)
Definition unauthenticated (cfg : SMAConfig) (rq : Request) : Prop :=
  header "Authorization" (rq_headers rq) = None /\
  header "X-API-Key" (rq_headers rq) = configured_key cfg.

(** The requests of one call of [_make_request]: what the caller asked for. *)
Definition asks (self : SDK) (method endpoint : string) (data params : option json)
    (rq : Request) : Prop :=
  rq_method rq = method /\ rq_url rq = build_url self endpoint /\
  rq_json rq = data /\ rq_params rq = params.

(** A run of attempts with exponential backoff: an attempt, and for each of
    the [n] reissues a sleep of [base * 2^k] before it, [k] counting on. *)
Inductive backoff_run (base : Q) (P : Request -> Prop) : nat -> nat -> list event -> Prop :=
| last_attempt : forall k rq, P rq -> backoff_run base P k 0 [Sent rq]
| next_attempt : forall k n rq tr,
    P rq -> backoff_run base P (S k) n tr ->
    backoff_run base P k (S n) (Sent rq :: Slept (base * inject_Z (2 ^ Z.of_nat k))%Q :: tr).

(** ** Sample environment and runs *)

Definition sample_str (v : json) : string :=
  match v with
  | JStr s => s
  | JNum n => str_of_int n
  | JBool true => "True"
  | JBool false => "False"
  | JNull => "None"
  | _ => "..."
  end.

(** A run-time for the sample runs: the clock ticks once per event, a
    delay overflows from [2 ** 1024] on and beyond 9223372036 seconds
    either way (a clock of 2^63 nanoseconds), and the stack holds 900
    retries. *)
Definition sample_env : Env :=
  {| clock := fun n => 1000000 * Z.of_nat n;
     gen_request_id := fun n => "sdk_" ++ str_of_int (Z.of_nat n);
     py_str := sample_str;
     py_str_string := fun s => eq_refl;
     delay_overflows := fun base k =>
       (1024 <=? k)%nat
       || negb (Qle_bool (base * inject_Z (2 ^ Z.of_nat k)) (inject_Z 9223372036))
       || negb (Qle_bool (inject_Z (-9223372036)) (base * inject_Z (2 ^ Z.of_nat k)));
     stack_exhausted := fun _ k => (900 <=? k)%nat |}.

Definition respond (st : Z) (body : json) : reply :=
  Answered {| r_status_code := st; r_text := EmptyString; r_json := Some body |}.

Definition token_body (t : string) : json :=
  JObj [("success", JBool true); ("data", JObj [("token", JStr t)])].

Definition held (a r : string) : AuthTokens :=
  {| access_token := JStr a; refresh_token_of := JStr r; expires_at := None |}.

Definition signed_in (a r : string) : SDK :=
  set_tokens (new_client default_config) (held a r).

Definition refresh_url : string := "https://api.sma-platform.com/api/auth/refresh".

Definition unauthorized_response : Response :=
  {| r_status_code := 401; r_text := EmptyString;
     r_json := Some (JObj [("success", JBool false);
                           ("error", JObj [("code", JStr "TOKEN_EXPIRED");
                                           ("message", JStr "Token expired")])]) |}.

Definition forbidden_response : Response :=
  {| r_status_code := 403; r_text := EmptyString; r_json := Some (JObj []) |}.


Definition validation_response : Response :=
  {| r_status_code := 400; r_text := EmptyString;
     r_json := Some (JObj [("success", JBool false);
                           ("error", JObj [("code", JStr "VALIDATION_ERROR");
                                           ("retryable", JBool false)])]) |}.

Definition not_found_text_response : Response :=
  {| r_status_code := 404; r_text := "Not Found"; r_json := None |}.

Definition healthy : json :=
  JObj [("success", JBool true); ("data", JObj [("status", JStr "ok")])].

Definition sample_user : json :=
  JObj [("id", JStr "u1"); ("email", JStr "a@example.com"); ("name", JStr "A");
        ("created_at", JStr "2024-01-01"); ("updated_at", JStr "2024-01-01")].

Definition login_body : json :=
  JObj [("success", JBool true);
        ("data", JObj [("token", JStr "t1"); ("user", sample_user)])].

(** The client after [login("a@example.com", "pw")] answered by
    [login_body]. *)
Definition logged_in : SDK :=
  snd (fst (login sample_env [respond 200 login_body] (new_client default_config)
                  "a@example.com" "pw")).

(** A request answered 401 whose refresh request is answered 401 as well,
    before the server accepts again. *)
Definition expired_run : outcome json * SDK * list reply :=
  _make_request sample_env
    [Answered unauthorized_response; Answered unauthorized_response;
     respond 200 (token_body "t2"); respond 200 (token_body "t3"); respond 200 healthy]
    (signed_in "t0" "r0") "GET" "/health" None None 0.

(** A [refresh_token] called by the user and answered 403, then a request. *)
Definition failed_refresh_run : outcome AuthTokens * SDK * list reply :=
  refresh_token sample_env [Answered forbidden_response; respond 200 healthy]
                (signed_in "t0" "r0").

Definition after_failed_refresh : outcome json * SDK * list reply :=
  _make_request sample_env (snd failed_refresh_run) (snd (fst failed_refresh_run))
                "GET" "/health" None None 0.

(** ** Construction of a client *)

(** [SocialMediaAutomationSDK(config)]: [config or SMAConfig()], no tokens.
    The session it sets up, with the retrying adapter and the default
    headers, is the [session.request] of the script: the adapter shows in
    which replies the session can give ([handed_back]), the default headers
    are not part of the headers [_make_request] passes and are left out. *)
Definition create_sma_client (cfg : option SMAConfig) : SDK :=
  new_client (match cfg with Some c => c | None => default_config end).

(** The dataclass a method builds from the [data] of its answer. *)
Definition builds (op : operation) : option (string * list string) :=
  match op with
  | OpGetPost _ | OpCreatePost _ | OpUpdatePost _ _ => Some ("Post", post_fields)
  | OpGetAnalytics _ _ _ => Some ("Analytics", analytics_fields)
  | OpGetCurrentUser => Some ("User", user_fields)
  | _ => None
  end.

(** The methods that hand [data] back as it came. *)
Definition returns_data (op : operation) : bool :=
  match op with
  | OpPublishPost _ | OpCreateBulkPosts _ | OpCheckHealth => true
  | _ => false
  end.

(** The methods that open a session. *)
Definition opens_session (op : operation) : bool :=
  match op with
  | OpLogin _ _ | OpRegister _ _ _ => true
  | _ => false
  end.

(** A client like [self] with another base URL. *)
Definition with_base_url (b : string) (self : SDK) : SDK :=
  {| config := {| base_url := b; api_key := api_key (config self);
                  timeout := timeout (config self);
                  retry_attempts := retry_attempts (config self);
                  retry_delay := retry_delay (config self);
                  debug := debug (config self) |};
     tokens := tokens self; trace := trace self |}.


Definition slow_config : SMAConfig :=
  {| base_url := "https://api.sma-platform.com/api/"; api_key := Some "k1";
     timeout := 60; retry_attempts := 5; retry_delay := 2%Q; debug := false |}.

Definition hasty_config : SMAConfig :=
  {| base_url := "https://api.sma-platform.com/api"; api_key := None;
     timeout := 30; retry_attempts := 3; retry_delay := (-1)%Q; debug := false |}.

Definition single_shot_config : SMAConfig :=
  {| base_url := "https://api.sma-platform.com/api"; api_key := None;
     timeout := 30; retry_attempts := 0; retry_delay := 1%Q; debug := false |}.

(** The token state [b] comes from [a] without a new refresh token: it is
    empty, or it has the refresh token of [a]. *)
Definition kept (a b : option AuthTokens) : Prop :=
  b = None \/ same_refresh a b.

(** A decoded value on which [.get] does not exist. *)
Definition not_a_dict (v : json) : Prop :=
  match v with JObj _ => False | _ => True end.

(** ** More sample answers *)

Definition answer (st : Z) (body : json) : Response :=
  {| r_status_code := st; r_text := EmptyString; r_json := Some body |}.

Definition plain_text_response : Response :=
  {| r_status_code := 200; r_text := "OK"; r_json := None |}.

Definition user_members : list (string * json) :=
  [("id", JStr "u1"); ("email", JStr "a@example.com"); ("name", JStr "A");
   ("created_at", JStr "2024-01-01"); ("updated_at", JStr "2024-01-01")].

Definition two_posts : list json :=
  [JObj [("content", JStr "one"); ("platforms", JArr [JStr "facebook"])];
   JObj [("content", JStr "two"); ("platforms", JArr [JStr "x"])]].

Definition key_client : SDK := create_sma_client (Some slow_config).

(** The two limits of the interpreter stay out of retries [rc] to
    [rc + n - 1] of a call with base delay [base]. *)
Definition within_limits (E : Env) (base : Q) (rc n : nat) : Prop :=
  (forall k, (rc <= k < rc + n)%nat -> delay_overflows E base k = false) /\
  (forall pos k, (rc <= k < rc + n)%nat -> stack_exhausted E pos k = false).

Definition eternal_config : SMAConfig :=
  {| base_url := "https://api.sma-platform.com/api"; api_key := None;
     timeout := 30; retry_attempts := 1; retry_delay := inject_Z 10000000000; debug := false |}.





(** ** Properties *)

Example url_one_slash :
  build_url (new_client default_config) "/posts" = "https://api.sma-platform.com/api/posts".
Proof. reflexivity. Qed.

Example url_strips_both_sides :
  build_url (new_client {| base_url := "http://h/api//"; api_key := None; timeout := 30;
                           retry_attempts := 3; retry_delay := 1%Q; debug := false |})
            "//health" = "http://h/api/health".
Proof. reflexivity. Qed.

Section Properties.

Variable E : Env.

(** *** Reading a response *)

Lemma ok_excludes_401 (r : Response) : ok r = true -> (r_status_code r =? 401) = false.
Proof.
  unfold ok. intros H. apply Z.eqb_neq. intros Heq. rewrite Heq in H. discriminate H.
Qed.

Lemma status_401_fails (r : Response) : r_status_code r = 401 -> ok r = false.
Proof. unfold ok. intros ->. reflexivity. Qed.

Lemma handle_response_ok (r : Response) : ok r = true -> handle_response r = Ret (parse_body r).
Proof. unfold handle_response. intros ->. reflexivity. Qed.

(** A failure status never yields a value. *)
Lemma handle_response_failure_raises (r : Response) (v : json) :
  ok r = false -> handle_response r <> Ret v.
Proof.
  unfold handle_response. intros ->. cbn [negb].
  unfold py_get, py_get_default.
  destruct (parse_body r) as [ | | | | |body]; cbn; try discriminate.
  destruct (match assoc "error" body with Some x => x | None => JObj [] end);
    cbn; discriminate.
Qed.



(** *** One answered request without refresh *)

Lemma can_refresh_attempt (self : SDK) m e d p :
  can_refresh (attempt E self m e d p) = can_refresh self.
Proof. reflexivity. Qed.

Lemma make_request_answered (r : Response) (net : list reply) (self : SDK) m e d p rc :
  (r_status_code r =? 401) && can_refresh self = false ->
  _make_request E (Answered r :: net) self m e d p rc
  = (handle_response r, attempt E self m e d p, net).
Proof.
  intros H. cbn [_make_request]. rewrite can_refresh_attempt, H. reflexivity.
Qed.

Lemma make_request_ok (r : Response) (net : list reply) (self : SDK) m e d p rc :
  ok r = true ->
  _make_request E (Answered r :: net) self m e d p rc
  = (Ret (parse_body r), attempt E self m e d p, net).
Proof.
  intros H. rewrite make_request_answered.
  - now rewrite handle_response_ok.
  - now rewrite ok_excludes_401.
Qed.

(** *** refresh_token and logout *)

(** C10: without a token pair, or with a pair that has no refresh token,
    [refresh_token] raises ["NO_REFRESH_TOKEN"]; the script is untouched (no
    request went out) and the client is as before. *)
Theorem refresh_token_needs_refresh_token (net : list reply) (self : SDK) :
  tokens self = None \/
  (exists t, tokens self = Some t /\ truthy (refresh_token_of t) = false) ->
  refresh_token E net self
  = (Exc (ESMA (sma_error "No refresh token available" "NO_REFRESH_TOKEN")), self, net).
Proof.
  intros [H | [t [H Hf]]]; unfold refresh_token, refresh_token_with; rewrite H.
  - reflexivity.
  - now rewrite Hf.
Qed.

(** C6: whatever the invalidation request of [logout] does, the client has
    no token pair afterwards. *)
Theorem logout_always_clears_tokens (net : list reply) (self : SDK) :
  tokens (snd (fst (logout E net self))) = None.
Proof.
  unfold logout.
  destruct (_make_request E net self "POST" "/auth/logout" None None 0) as [[[v|x|] s] n];
    reflexivity.
Qed.

(** C5 as the code has it: every operation, [logout] included, hands the
    exception of its request on to the caller; [logout] clears the token
    pair on the way out. *)
Theorem operations_propagate_request_errors
    (op : operation) (net : list reply) (self : SDK) m e d p x s n :
  request_of op self = (m, e, d, p) ->
  reaches_request op self = true ->
  _make_request E net self m e d p 0 = (Exc x, s, n) ->
  perform E op net self
  = (Exc x, match op with OpLogout => with_tokens None s | _ => s end, n).
Proof.
  intros Hreq Hreach Hrun.
  destruct op; unfold request_of in Hreq; injection Hreq as <- <- <- <-; cbn [perform];
    unfold login, register, logout, get_posts, get_post, create_post, update_post,
      delete_post, publish_post, create_bulk_posts, get_analytics, connect_platform,
      disconnect_platform, check_health, get_current_user;
    try (rewrite Hrun; reflexivity);
    try (match goal with
         | |- and_then ?c _ = _ =>
             replace c with (@Exc json x, s, n) by (symmetry; exact Hrun)
         end; reflexivity).
  (* refresh_token *)
  unfold refresh_token, refresh_token_with. cbn in Hreach. unfold can_refresh in Hreach.
  destruct (tokens self) as [t|]; [|discriminate].
  rewrite Hreach, Hrun. reflexivity.
Qed.

(** *** Rejected envelopes *)

Ltac open_methods :=
  unfold login, register, logout, get_posts, get_post, create_post, update_post,
    delete_post, publish_post, create_bulk_posts, get_analytics, connect_platform,
    disconnect_platform, check_health, get_current_user, refresh_token.

Ltac open_tails :=
  unfold open_session, built, plain, data_of, store_refreshed,
    lacks_success_or_data, lacks_success, py_get, py_get_default.

(** C3 as the code has it: on a success status, the methods that read
    [data] raise their own code when [success] is falsy or [data] is missing
    or falsy; [get_posts], [delete_post] and [disconnect_platform] raise
    their own code when [success] is falsy.  One request went out. *)
Theorem rejected_envelope_raises_operation_code
    (op : operation) (r : Response) (net : list reply) (self : SDK)
    (body : list (string * json)) (c : string) :
  ok r = true ->
  r_json r = Some (JObj body) ->
  reaches_request op self = true ->
  failure_code op = Some c ->
  truthy (member "success" body) = false \/
  (reads_data op = true /\ truthy (member "data" body) = false) ->
  let '(m, e, d, p) := request_of op self in
  exists msg,
    perform E op (Answered r :: net) self
    = (Exc (ESMA (sma_error msg c)), attempt E self m e d p, net).
Proof.
  intros Hok Hjson Hreach Hcode Hbad. unfold member in Hbad.
  assert (Hreject :
    forall (A : Type) (k : json -> outcome A) (x : exn),
      (bad <- lacks_success_or_data (JObj body) ;;
       if (bad : bool) then Exc x else k (JObj body)) = Exc x
      \/ reads_data op = false).
  { intros A k x. unfold lacks_success_or_data, py_get, py_get_default. cbn [bind].
    destruct Hbad as [Hs | [Hrd Hd]].
    - left. now rewrite Hs.
    - left. rewrite Hd. destruct (negb _); reflexivity. }
  assert (Hreject' :
    forall (A : Type) (k : outcome A) (x : exn),
      reads_data op = false ->
      (bad <- lacks_success (JObj body) ;; if (bad : bool) then Exc x else k) = Exc x).
  { intros A k x Hrd. unfold lacks_success, py_get, py_get_default. cbn [bind].
    destruct Hbad as [Hs | [Hrd' _]]; [now rewrite Hs | congruence]. }
  destruct op; cbn [request_of]; cbn in Hcode; try discriminate Hcode;
    injection Hcode as <-; cbn [perform]; open_methods.
  3: { unfold refresh_token_with. cbn in Hreach. unfold can_refresh in Hreach.
       destruct (tokens self) as [t|] eqn:Htok; [|discriminate]. rewrite Hreach.
       rewrite make_request_ok by assumption. unfold parse_body. rewrite Hjson.
       cbn [and_then]. unfold store_refreshed.
       destruct (Hreject json (fun v => d <- py_item v "data" ;; py_item d "token")
                   (ESMA (sma_error "Token refresh failed" "TOKEN_REFRESH_FAILED")))
         as [-> | Hrd]; [|discriminate Hrd].
       eexists. reflexivity. }
  all: rewrite make_request_ok by assumption; unfold parse_body; rewrite Hjson;
    cbn [and_then]; unfold open_session, built, plain, data_of.
  all: try (rewrite Hreject' by reflexivity; eexists; reflexivity).
  all: match goal with
       | |- context [bind (lacks_success_or_data _)
                          (fun bad => if bad then Exc ?x else ?K)] =>
           destruct (Hreject _ (fun _ => K) x) as [Hr | Hrd];
           [ cbv beta in Hr; rewrite Hr | discriminate Hrd ]
       end; cbn; eexists; reflexivity.
Qed.

(** *** What a run keeps *)

Lemma same_refresh_refl (a : option AuthTokens) : same_refresh a a.
Proof. destruct a; cbn; auto. Qed.

(** After a successful answer of [/auth/refresh] the held pair keeps its
    refresh token. *)
Lemma store_refreshed_ret (response : json) (s0 : SDK) (t' : AuthTokens) (s : SDK) :
  store_refreshed E response s0 = (Ret t', s) ->
  exists t0 d tok,
    tokens s0 = Some t0 /\ py_item response "data" = Ret d /\ py_item d "token" = Ret tok /\
    t' = {| access_token := tok; refresh_token_of := refresh_token_of t0;
            expires_at := Some (clock E (List.length (trace s0)) + fifteen_minutes) |} /\
    s = with_tokens (Some t') s0.
Proof.
  unfold store_refreshed. intros H.
  destruct (lacks_success_or_data response) as [[|]|x|]; cbn [bind] in H;
    try discriminate H.
  destruct (py_item response "data") as [d|x|] eqn:Hd; cbn [bind] in H; try discriminate H.
  destruct (py_item d "token") as [tok|x|] eqn:Htok; try discriminate H.
  destruct (tokens s0) as [t0|] eqn:Ht; try discriminate H.
  injection H as <- <-. exists t0, d, tok. repeat split; assumption.
Qed.

(** The 401 branch of [_make_request], in terms of [refresh_token]. *)
Lemma make_request_401 (r : Response) (net : list reply) (self : SDK) m e d p rc :
  r_status_code r = 401 ->
  can_refresh self = true ->
  _make_request E (Answered r :: net) self m e d p rc
  = match refresh_token E net (attempt E self m e d p) with
    | (Ret _, s, n) =>
        match tokens s with
        | Some t =>
            let s := record_event
                       (Sent (request_for self m e d p
                                (dict_set "Authorization"
                                          ("Bearer " ++ py_str E (access_token t))
                                          (initial_headers E self)))) s in
            match n with
            | [] => (Starved, s, [])
            | Refused _ :: n' => (handle_response r, with_tokens None s, n')
            | Answered r' :: n' => (handle_response r', s, n')
            end
        | None => (handle_response r, with_tokens None s, n)
        end
    | (Exc _, s, n) => (handle_response r, with_tokens None s, n)
    | (Starved, s, n) => (Starved, s, n)
    end.
Proof.
  intros H401 Hcan. cbn [_make_request].
  rewrite can_refresh_attempt, Hcan, H401. reflexivity.
Qed.


Ltac absurd_value H r :=
  exfalso; injection H as H _ _;
  apply (handle_response_failure_raises r) in H; [exact H | now apply status_401_fails].

(** A run that returns a value leaves the refresh token and the
    configuration alone. *)
Lemma make_request_ret_same_refresh (net : list reply) :
  forall self m e d p rc v s n,
    _make_request E net self m e d p rc = (Ret v, s, n) ->
    same_refresh (tokens self) (tokens s) /\ config s = config self.
Proof.
  induction net as [|[msg|r] net IH]; intros self m e d p rc v s n H.
  - discriminate H.
  - cbn [_make_request] in H.
    destruct (Z.of_nat rc <? _); [destruct (delay_overflows _ _ _);
       [|destruct (Qle_bool _ _); [destruct (stack_exhausted _ _ _)|]]|]; try discriminate H.
    apply IH in H. exact H.
  - destruct ((r_status_code r =? 401) && can_refresh self) eqn:Hc.
    + apply andb_prop in Hc as [H401 Hcan]. apply Z.eqb_eq in H401.
      rewrite make_request_401 in H by assumption.
      unfold refresh_token, refresh_token_with in H. unfold can_refresh in Hcan.
      change (tokens (attempt E self m e d p)) with (tokens self) in H.
      destruct (tokens self) as [t|] eqn:Ht; [|discriminate Hcan].
      rewrite Hcan in H.
      destruct (_make_request E net _ _ _ _ _ _) as [[[resp|x|] s1] n1] eqn:Hmk.
      * apply IH in Hmk. destruct Hmk as [Hsame Hcfg].
        change (tokens (attempt E self m e d p)) with (tokens self) in Hsame.
        change (config (attempt E self m e d p)) with (config self) in Hcfg.
        rewrite Ht in Hsame.
        destruct (store_refreshed E resp s1) as [[t'|x|] s2] eqn:Hst.
        -- apply store_refreshed_ret in Hst.
           destruct Hst as (t0 & dd & tok & Ht0 & _ & _ & Ht' & ->).
           cbn [tokens with_tokens] in H. rewrite Ht0 in Hsame. cbn in Hsame.
           destruct n1 as [|[msg|r'] n1'].
           ++ discriminate H.
           ++ absurd_value H r.
           ++ injection H as _ <- _. cbn. rewrite Ht'. cbn. split; congruence.
        -- absurd_value H r.
        -- discriminate H.
      * absurd_value H r.
      * discriminate H.
    + rewrite make_request_answered in H by assumption.
      injection H as _ <- _. split; [apply same_refresh_refl | reflexivity].
Qed.

(** C9: when [refresh_token] succeeds, the pair it leaves in the client is
    the pair held before with the access token replaced by the [token] of
    the answer and the expiry set to fifteen minutes from now; the refresh
    token and the configuration are the ones held before. *)
Theorem refresh_token_replaces_access_token_only
    (net : list reply) (self : SDK) (t' : AuthTokens) (s : SDK) (n : list reply) :
  refresh_token E net self = (Ret t', s, n) ->
  exists t0 resp s0 dat tok,
    tokens self = Some t0 /\
    _make_request E net self "POST" "/auth/refresh"
      (Some (JObj [("refreshToken", refresh_token_of t0)])) None 0 = (Ret resp, s0, n) /\
    py_item resp "data" = Ret dat /\ py_item dat "token" = Ret tok /\
    t' = {| access_token := tok; refresh_token_of := refresh_token_of t0;
            expires_at := Some (clock E (List.length (trace s0)) + fifteen_minutes) |} /\
    s = with_tokens (Some t') s0 /\
    config s = config self.
Proof.
  unfold refresh_token, refresh_token_with. intros H.
  destruct (tokens self) as [t|] eqn:Ht; [|discriminate H].
  destruct (truthy (refresh_token_of t)); [|discriminate H].
  destruct (_make_request E net _ _ _ _ _ _) as [[[resp|x|] s1] n1] eqn:Hmk;
    try discriminate H.
  pose proof (make_request_ret_same_refresh _ _ _ _ _ _ _ _ _ _ Hmk) as [Hsame Hcfg].
  rewrite Ht in Hsame.
  destruct (store_refreshed E resp s1) as [o s2] eqn:Hst.
  injection H as -> -> ->.
  apply store_refreshed_ret in Hst.
  destruct Hst as (t0 & dd & tok & Ht0 & Hd & Htok & Ht' & ->).
  rewrite Ht0 in Hsame. cbn in Hsame.
  exists t, resp, s1, dd, tok.
  repeat split; try assumption; try reflexivity.
  rewrite Ht', Hsame. reflexivity.
Qed.

(** *** Transport failures *)

Lemma backoff_run_reads (base : Q) (P : Request -> Prop) (k n : nat) (tr : list event) :
  backoff_run base P k n tr ->
  List.length (requests tr) = (n + 1)%nat /\ sleeps tr = backoff base k n /\
  Forall P (requests tr).
Proof.
  induction 1 as [k rq HP | k n rq tr HP Hrun [IHl [IHs IHP]]].
  - cbn. repeat split. constructor; [exact HP | constructor].
  - cbn [requests sleeps flat_map app backoff List.length].
    fold (requests tr). fold (sleeps tr). rewrite IHl, IHs.
    repeat split. constructor; assumption.
Qed.

Lemma backoff_delay_nonneg (base : Q) (k : nat) :
  (0 <= base)%Q -> Qle_bool 0 (base * inject_Z (2 ^ Z.of_nat k)) = true.
Proof.
  intros Hb. apply Qle_bool_iff. apply Qmult_le_0_compat; [exact Hb|].
  change 0%Q with (inject_Z 0). rewrite <- Zle_Qle. apply Z.pow_nonneg. lia.
Qed.

Lemma within_limits_step (base : Q) (rc n : nat) :
  within_limits E base rc (S n) ->
  delay_overflows E base rc = false /\
  (forall pos, stack_exhausted E pos rc = false) /\
  within_limits E base (S rc) n.
Proof.
  intros [Ho Hs]. split; [apply Ho; lia|]. split; [intros pos; apply Hs; lia|].
  split; [intros k Hk; apply Ho | intros pos k Hk; apply Hs]; lia.
Qed.

(** The limits of [sample_env] in numbers: up to 900 retries whose longest
    delay is at most 9223372036 seconds. *)
Lemma sample_env_within_limits (base : Q) (n : nat) :
  (0 <= base)%Q -> (n <= 900)%nat ->
  (base * inject_Z (2 ^ Z.of_nat n) <= inject_Z 9223372036)%Q ->
  within_limits sample_env base 0 n.
Proof.
  intros Hb Hn Hmax. split.
  - intros k Hk. cbn [delay_overflows sample_env].
    assert (H0 : (0 <= base * inject_Z (2 ^ Z.of_nat k))%Q)
      by (apply Qle_bool_iff, backoff_delay_nonneg, Hb).
    replace (1024 <=? k)%nat with false by (symmetry; apply Nat.leb_gt; lia).
    replace (Qle_bool (base * inject_Z (2 ^ Z.of_nat k)) (inject_Z 9223372036)) with true.
    + replace (Qle_bool (inject_Z (-9223372036)) (base * inject_Z (2 ^ Z.of_nat k)))
        with true; [reflexivity|].
      symmetry. apply Qle_bool_iff. eapply Qle_trans; [|exact H0]. discriminate.
    + symmetry. apply Qle_bool_iff. eapply Qle_trans; [|exact Hmax].
      rewrite (Qmult_comm base), (Qmult_comm base).
      apply Qmult_le_compat_r; [|exact Hb].
      rewrite <- Zle_Qle. apply Z.pow_le_mono_r; lia.
  - intros pos k Hk. cbn [stack_exhausted sample_env]. apply Nat.leb_gt. lia.
Qed.

Lemma refused_until_exhausted (msgs : list string) :
  forall (self : SDK) (rc : nat) (last : string) (net : list reply) m e d p,
    (0 <= retry_delay (config self))%Q ->
    Z.of_nat rc + Z.of_nat (List.length msgs) = retry_attempts (config self) ->
    within_limits E (retry_delay (config self)) rc (List.length msgs) ->
    exists s new,
      _make_request E (map Refused msgs ++ Refused last :: net) self m e d p rc
      = (Exc (ESMA (network_error last)), s, net) /\
      tokens s = tokens self /\ config s = config self /\
      trace s = (trace self ++ new)%list /\
      backoff_run (retry_delay (config self)) (asks self m e d p) rc (List.length msgs) new.
Proof.
  induction msgs as [|msg msgs IH]; intros self rc last net m e d p Hd Hlen Hlim.
  - cbn [map app _make_request]. cbn [List.length] in Hlen.
    change (config (attempt E self m e d p)) with (config self).
    replace (Z.of_nat rc <? retry_attempts (config self)) with false
      by (symmetry; apply Z.ltb_ge; lia).
    eexists. eexists. repeat split.
    constructor. repeat split.
  - cbn [map app _make_request]. cbn [List.length] in Hlen, Hlim.
    apply within_limits_step in Hlim as (Ho & Hs & Hlim).
    change (config (attempt E self m e d p)) with (config self).
    replace (Z.of_nat rc <? retry_attempts (config self)) with true
      by (symmetry; apply Z.ltb_lt; lia).
    rewrite Ho, backoff_delay_nonneg, Hs by assumption.
    destruct (IH (record_event
                    (Slept (retry_delay (config self) * inject_Z (2 ^ Z.of_nat rc)))
                    (attempt E self m e d p))
                 (S rc) last net m e d p) as (s & new & Hrun & Htok & Hcfg & Htr & Hback).
    + exact Hd.
    + cbn [config record_event attempt]. lia.
    + exact Hlim.
    + exists s. eexists. rewrite Hrun. repeat split; try assumption.
      * rewrite Htr. cbn [trace record_event attempt]. rewrite <- !app_assoc. reflexivity.
      * cbn [List.length]. constructor; [repeat split | exact Hback].
Qed.

(** C2: when every attempt is refused by the transport, [_make_request]
    makes [retry_attempts + 1] attempts, sleeps [retry_delay * 2^k] before
    reissue number [k+1], and then raises the ["NETWORK_ERROR"] error, which
    is retryable.  Attempts and delays are a configured count and a
    duration: neither is negative, and both stay within what the
    interpreter can sleep and nest: no delay of the run overflows
    [time.sleep] and no retry hits the recursion limit. *)
Theorem transport_failures_exhaust_retries
    (msgs : list string) (last : string) (net : list reply) (self : SDK) m e d p :
  0 <= retry_attempts (config self) ->
  (0 <= retry_delay (config self))%Q ->
  (forall k, (k < Z.to_nat (retry_attempts (config self)))%nat ->
     delay_overflows E (retry_delay (config self)) k = false) ->
  (forall pos k, (k < Z.to_nat (retry_attempts (config self)))%nat ->
     stack_exhausted E pos k = false) ->
  List.length msgs = Z.to_nat (retry_attempts (config self)) ->
  exists s new,
    _make_request E (map Refused msgs ++ Refused last :: net) self m e d p 0
    = (Exc (ESMA (network_error last)), s, net) /\
    code (network_error last) = JStr "NETWORK_ERROR" /\
    retryable (network_error last) = JBool true /\
    trace s = (trace self ++ new)%list /\
    backoff_run (retry_delay (config self)) (asks self m e d p) 0
                (Z.to_nat (retry_attempts (config self))) new /\
    List.length (requests new) = (Z.to_nat (retry_attempts (config self)) + 1)%nat /\
    sleeps new = backoff (retry_delay (config self)) 0 (Z.to_nat (retry_attempts (config self))).
Proof.
  intros Ha Hd Ho Hs Hlen.
  destruct (refused_until_exhausted msgs self 0 last net m e d p Hd)
    as (s & new & Hrun & _ & _ & Htr & Hback).
  - rewrite Hlen. lia.
  - rewrite Hlen. split; [intros k Hk; apply Ho | intros pos k Hk; apply Hs]; lia.
  - rewrite Hlen in Hback.
    destruct (backoff_run_reads _ _ _ _ _ Hback) as (Hl & Hsl & _).
    exists s, new. repeat split; assumption.
Qed.

(** *** Traces only grow *)

Lemma extends_refl (s : SDK) : extends s s.
Proof. split; [reflexivity|]. exists []. now rewrite app_nil_r. Qed.

Lemma extends_trans (a b c : SDK) : extends a b -> extends b c -> extends a c.
Proof.
  intros [C1 [n1 H1]] [C2 [n2 H2]]. split; [congruence|].
  exists (n1 ++ n2)%list. now rewrite H2, H1, app_assoc.
Qed.

Lemma extends_record (ev : event) (a b : SDK) : extends a b -> extends a (record_event ev b).
Proof.
  intros [C1 [n1 H1]]. split; [exact C1|].
  exists (n1 ++ [ev])%list. cbn. now rewrite H1, app_assoc.
Qed.

Lemma extends_with_tokens (t : option AuthTokens) (a b : SDK) :
  extends a b -> extends a (with_tokens t b).
Proof. intros H. exact H. Qed.

Lemma extends_attempt (a b : SDK) m e d p : extends a b -> extends a (attempt E b m e d p).
Proof. apply extends_record. Qed.

Lemma store_refreshed_extends (response : json) (a b : SDK) :
  extends a b -> extends a (snd (store_refreshed E response b)).
Proof.
  intros H. unfold store_refreshed.
  destruct (bind _ _) as [tok|x|]; [destruct (tokens b)|..]; exact H.
Qed.

Create HintDb grow discriminated.
#[local] Hint Resolve extends_refl extends_record extends_with_tokens extends_attempt
  store_refreshed_extends : grow.

Lemma make_request_extends (net : list reply) :
  forall self m e d p rc, extends self (snd (fst (_make_request E net self m e d p rc))).
Proof.
  induction net as [|[msg|r] net IH]; intros self m e d p rc.
  - cbn. auto with grow.
  - cbn [_make_request].
    destruct (Z.of_nat rc <? _); [destruct (delay_overflows _ _ _);
       [|destruct (Qle_bool _ _); [destruct (stack_exhausted _ _ _)|]]|]; cbn [fst snd];
      auto with grow.
    eapply extends_trans; [|apply IH]. auto with grow.
  - destruct ((r_status_code r =? 401) && can_refresh self) eqn:Hc.
    + apply andb_prop in Hc as [H401 Hcan]. apply Z.eqb_eq in H401.
      rewrite make_request_401 by assumption.
      assert (Hr : extends self (snd (fst (refresh_token E net (attempt E self m e d p))))).
      { unfold refresh_token, refresh_token_with.
        destruct (tokens _) as [a|]; [destruct (truthy _)|]; cbn [fst snd]; auto with grow.
        specialize (IH (attempt E self m e d p) "POST" "/auth/refresh"
                       (Some (JObj [("refreshToken", refresh_token_of a)])) None 0%nat).
        assert (Hb : extends self (snd (fst (_make_request E net (attempt E self m e d p)
                       "POST" "/auth/refresh"
                       (Some (JObj [("refreshToken", refresh_token_of a)])) None 0%nat))))
          by (eapply extends_trans; [|exact IH]; auto with grow).
        destruct (_make_request E net _ _ _ _ _ _) as [[[resp|x|] s1] n1];
          cbn [fst snd] in *; auto with grow. }
      destruct (refresh_token E net _) as [[[t'|x|] s1] n1]; cbn [fst snd] in *;
        auto with grow.
      destruct (tokens s1); [destruct n1 as [|[?|?] ?]|]; cbn [fst snd]; auto with grow.
    + rewrite make_request_answered by assumption. cbn. auto with grow.
Qed.


(** *** Authorization headers *)


Lemma initial_headers_fallback (self : SDK) :
  tokens self = None \/ (exists t, tokens self = Some t /\ truthy (access_token t) = false) ->
  header "Authorization" (initial_headers E self) = None /\
  header "X-API-Key" (initial_headers E self) = configured_key (config self).
Proof.
  intros H.
  assert (Ha : auth_headers E self = api_key_headers self).
  { unfold auth_headers. destruct H as [-> | [t [-> ->]]]; reflexivity. }
  unfold initial_headers. rewrite Ha. unfold api_key_headers, configured_key.
  destruct (api_key (config self)) as [k|]; [destruct (negb (k =? EmptyString)%string)|];
    split; reflexivity.
Qed.


Lemma header_dict_set_same (k v : string) (h : list (string * string)) :
  header k (dict_set k v h) = Some v.
Proof.
  induction h as [|[k' v'] h IH]; cbn.
  - now rewrite String.eqb_refl.
  - destruct (k' =? k)%string eqn:Hk; cbn.
    + now rewrite String.eqb_refl.
    + now rewrite Hk.
Qed.

Lemma header_dict_set_other (k k0 v : string) (h : list (string * string)) :
  k0 <> k -> header k0 (dict_set k v h) = header k0 h.
Proof.
  intros Hne. induction h as [|[k' v'] h IH]; cbn.
  - apply String.eqb_neq in Hne. rewrite String.eqb_sym. now rewrite Hne.
  - destruct (k' =? k)%string eqn:Hk; cbn.
    + apply String.eqb_eq in Hk. subst k'.
      replace (k =? k0)%string with false; [reflexivity|].
      symmetry. apply String.eqb_neq. congruence.
    + destruct (k' =? k0)%string; [reflexivity | exact IH].
Qed.




(** *** After a failed refresh *)

Lemma requests_app (a b : list event) : requests (a ++ b) = (requests a ++ requests b)%list.
Proof. unfold requests. apply flat_map_app. Qed.

(** A client without a token pair sends only unauthenticated requests and
    stays without a pair. *)
Lemma make_request_signed_out (net : list reply) :
  forall self m e d p rc,
    tokens self = None ->
    tokens (snd (fst (_make_request E net self m e d p rc))) = None /\
    exists new,
      trace (snd (fst (_make_request E net self m e d p rc))) = (trace self ++ new)%list /\
      Forall (unauthenticated (config self)) (requests new).
Proof.
  induction net as [|[msg|r] net IH]; intros self m e d p rc Ht.
  - cbn. split; [exact Ht|]. exists []. rewrite app_nil_r. split; [reflexivity|constructor].
  - assert (Hu : unauthenticated (config self)
                   (request_for self m e d p (initial_headers E self)))
      by (apply initial_headers_fallback; now left).
    cbn [_make_request].
    destruct (Z.of_nat rc <? _); [destruct (delay_overflows _ _ _);
       [|destruct (Qle_bool _ _); [destruct (stack_exhausted _ _ _)|]]|]; cbn [fst snd].
    + split; [exact Ht|]. exists [Sent (request_for self m e d p (initial_headers E self))].
      split; [reflexivity|]. cbn. constructor; [exact Hu|constructor].
    + split; [exact Ht|].
      exists [Sent (request_for self m e d p (initial_headers E self));
              Slept (retry_delay (config self) * inject_Z (2 ^ Z.of_nat rc))].
      split; [cbn; now rewrite <- app_assoc|]. cbn. constructor; [exact Hu|constructor].
    + destruct (IH (record_event
                      (Slept (retry_delay (config (attempt E self m e d p))
                              * inject_Z (2 ^ Z.of_nat rc)))
                      (attempt E self m e d p)) m e d p (S rc) Ht)
        as [Hn [new [Htr Hall]]].
      split; [exact Hn|]. eexists. split.
      * rewrite Htr. cbn [trace record_event attempt]. rewrite <- !app_assoc. reflexivity.
      * cbn. constructor; assumption.
    + split; [exact Ht|]. exists [Sent (request_for self m e d p (initial_headers E self))].
      split; [reflexivity|]. cbn. constructor; [exact Hu|constructor].
    + split; [exact Ht|]. exists [Sent (request_for self m e d p (initial_headers E self))].
      split; [reflexivity|]. cbn. constructor; [exact Hu|constructor].
  - assert (Hu : unauthenticated (config self)
                   (request_for self m e d p (initial_headers E self)))
      by (apply initial_headers_fallback; now left).
    rewrite make_request_answered
      by (unfold can_refresh; rewrite Ht; apply andb_false_r).
    cbn [fst snd]. split; [exact Ht|].
    exists [Sent (request_for self m e d p (initial_headers E self))].
    split; [reflexivity|]. cbn. constructor; [exact Hu|constructor].
Qed.

(** C4 as the code has it: when the refresh that [_make_request] starts on
    a 401 fails, the error mapped from the 401 response is raised, the
    client is left without a token pair, and each request it issues from
    then on carries no [Authorization] header: the API key when one is
    configured, else nothing. *)
Theorem failed_refresh_on_401_signs_out
    (r : Response) (net : list reply) (self : SDK) m e d p rc
    (x : exn) (s1 : SDK) (n1 : list reply) :
  r_status_code r = 401 ->
  can_refresh self = true ->
  refresh_token E net (attempt E self m e d p) = (Exc x, s1, n1) ->
  exists s,
    _make_request E (Answered r :: net) self m e d p rc = (handle_response r, s, n1) /\
    tokens s = None /\
    forall net' m' e' d' p' rc',
      tokens (snd (fst (_make_request E net' s m' e' d' p' rc'))) = None /\
      exists new,
        trace (snd (fst (_make_request E net' s m' e' d' p' rc'))) = (trace s ++ new)%list /\
        Forall (unauthenticated (config s)) (requests new).
Proof.
  intros H401 Hcan Href. exists (with_tokens None s1).
  rewrite make_request_401 by assumption. rewrite Href.
  split; [reflexivity|]. split; [reflexivity|].
  intros net' m' e' d' p' rc'. now apply make_request_signed_out.
Qed.

(** The refresh-and-retry as it is meant: the answer to the refresh request
    is a success carrying a token, and the original request is reissued
    once with it.  Three requests go out. *)
Lemma refresh_and_retry_once
    (r r1 r2 : Response) (net : list reply) (self : SDK) (t : AuthTokens) m e d p rc
    (body dat : list (string * json)) (tok : string) :
  r_status_code r = 401 ->
  tokens self = Some t -> truthy (refresh_token_of t) = true ->
  ok r1 = true -> r_json r1 = Some (JObj body) ->
  truthy (member "success" body) = true ->
  assoc "data" body = Some (JObj dat) -> assoc "token" dat = Some (JStr tok) ->
  exists s,
    _make_request E (Answered r :: Answered r1 :: Answered r2 :: net) self m e d p rc
    = (handle_response r2, s, net) /\
    (exists rq1 rq2 rq3, trace s = (trace self ++ [Sent rq1; Sent rq2; Sent rq3])%list /\
       asks self m e d p rq1 /\
       asks self "POST" "/auth/refresh"
            (Some (JObj [("refreshToken", refresh_token_of t)])) None rq2 /\
       asks self m e d p rq3 /\
       header "Authorization" (rq_headers rq3) = Some ("Bearer " ++ tok)) /\
    (exists now, tokens s = Some {| access_token := JStr tok;
                                    refresh_token_of := refresh_token_of t;
                                    expires_at := Some (now + fifteen_minutes) |}).
Proof.
  intros H401 Ht Hrt Hok Hjson Hsucc Hdat Htok.
  assert (Hcan : can_refresh self = true) by (unfold can_refresh; now rewrite Ht).
  rewrite make_request_401 by assumption.
  unfold refresh_token, refresh_token_with.
  change (tokens (attempt E self m e d p)) with (tokens self). rewrite Ht, Hrt.
  rewrite make_request_ok by assumption.
  unfold parse_body. rewrite Hjson. unfold store_refreshed, lacks_success_or_data,
    py_get, py_get_default, py_item.
  unfold member in Hsucc. cbn [bind]. rewrite Hsucc. cbn [negb bind].
  rewrite Hdat. cbn [truthy].
  assert (Hne : dat <> []) by (intros ->; discriminate Htok).
  destruct dat as [|kv dat']; [congruence|]. cbn [negb bind]. rewrite Htok.
  cbn [tokens attempt record_event with_tokens]. rewrite Ht.
  eexists. split; [reflexivity|]. split.
  - do 3 eexists. split.
    + cbn [trace record_event with_tokens attempt]. rewrite <- !app_assoc. reflexivity.
    + repeat split. cbn [rq_headers request_for access_token].
      rewrite (py_str_string E). unfold initial_headers.
      cbn [dict_set String.eqb Ascii.eqb Bool.eqb].
      set (h := auth_headers E self). clearbody h.
      induction h as [|[k v] h IHh]; cbn [dict_set header].
      * cbn. reflexivity.
      * destruct (k =? "Authorization")%string eqn:Hk.
        -- cbn. reflexivity.
        -- cbn [header]. cbn in IHh. cbn. rewrite Hk. exact IHh.
  - eexists. reflexivity.
Qed.

(** Against a server that answers 401 to everything, the refresh request
    included, the nesting never ends by itself: a script of [k] such answers
    is used up, with [k] requests sent, and the run asks for more. *)
Lemma refresh_nesting_is_unbounded (r : Response) (k : nat) :
  r_status_code r = 401 ->
  forall self m e d p rc,
    can_refresh self = true ->
    exists s,
      _make_request E (repeat (Answered r) k) self m e d p rc = (Starved, s, []) /\
      List.length (requests (trace s)) = (List.length (requests (trace self)) + k)%nat.
Proof.
  intros H401. induction k as [|k IH]; intros self m e d p rc Hcan.
  - exists self. split; [reflexivity | lia].
  - cbn [repeat]. rewrite make_request_401 by assumption.
    unfold refresh_token, refresh_token_with. unfold can_refresh in Hcan.
    change (tokens (attempt E self m e d p)) with (tokens self).
    destruct (tokens self) as [t|] eqn:Ht; [|discriminate Hcan]. rewrite Hcan.
    destruct (IH (attempt E self m e d p) "POST" "/auth/refresh"
                 (Some (JObj [("refreshToken", refresh_token_of t)])) None 0%nat)
      as (s & Hrun & Hlen).
    + unfold can_refresh. cbn [tokens attempt record_event]. now rewrite Ht.
    + rewrite Hrun. exists s. split; [reflexivity|]. rewrite Hlen.
      cbn [attempt record_event trace]. rewrite requests_app, length_app. cbn. lia.
Qed.

End Properties.

(** *** Sample runs *)

Example login_then_request_carries_bearer :
  tokens logged_in
  = Some {| access_token := JStr "t1"; refresh_token_of := JNull;
            expires_at := Some (1000000 + fifteen_minutes) |} /\
  authorizations
    (trace (snd (fst (check_health sample_env [respond 200 healthy] logged_in))))
  = [None; Some "Bearer t1"].
Proof. vm_compute. split; reflexivity. Qed.

Example create_post_validation_error :
  exists e s,
    create_post sample_env [Answered validation_response] logged_in
                (JObj [("content", JStr EmptyString); ("platforms", JArr [])])
    = (Exc (ESMA e), s, []) /\
    code e = JStr "VALIDATION_ERROR" /\ retryable e = JBool false.
Proof. do 2 eexists. vm_compute. repeat split. Qed.

(** C1: at a 401 whose refresh request is itself answered 401, the refresh
    request runs through the same 401 handling and refreshes again: three
    requests go to [/auth/refresh], from two calls of [refresh_token] (two
    request ids, the first one used again for the reissue of the refresh
    request), before the original request is reissued. *)
Theorem refresh_request_answered_401_refreshes_again :
  fst (fst expired_run) = Ret healthy /\
  map rq_url (requests (trace (snd (fst expired_run))))
  = ["https://api.sma-platform.com/api/health"; refresh_url; refresh_url; refresh_url;
     "https://api.sma-platform.com/api/health"] /\
  List.length (requests_to refresh_url (trace (snd (fst expired_run)))) = 3%nat /\
  map (fun rq => header "X-Request-ID" (rq_headers rq))
      (requests_to refresh_url (trace (snd (fst expired_run))))
  = [Some "sdk_1"; Some "sdk_2"; Some "sdk_1"] /\
  authorizations (trace (snd (fst expired_run)))
  = [Some "Bearer t0"; Some "Bearer t0"; Some "Bearer t0"; Some "Bearer t2";
     Some "Bearer t3"].
Proof. vm_compute. repeat split. Qed.

Lemma transport_failures_exhaust_retries_witness :
  0 <= retry_attempts default_config /\
  (0 <= retry_delay default_config)%Q /\
  exists s new,
    _make_request sample_env (map Refused ["a"; "b"; "c"] ++ [Refused "d"])
                  (new_client default_config) "GET" "/health" None None 0
    = (Exc (ESMA (network_error "d")), s, []) /\
    code (network_error "d") = JStr "NETWORK_ERROR" /\
    retryable (network_error "d") = JBool true /\
    trace s = ([] ++ new)%list /\
    backoff_run 1%Q (asks (new_client default_config) "GET" "/health" None None) 0 3 new /\
    List.length (requests new) = 4%nat /\
    sleeps new = backoff 1%Q 0 3.
Proof.
  split; [cbn; lia|]. split; [unfold Qle; cbn; lia|].
  apply (transport_failures_exhaust_retries sample_env ["a"; "b"; "c"] "d" []
           (new_client default_config) "GET" "/health" None None).
  - cbn. lia.
  - unfold Qle. cbn. lia.
  - intros k Hk. destruct k as [|[|[|k]]]; try reflexivity. cbn in Hk. lia.
  - intros pos k Hk. destruct k as [|[|[|k]]]; try reflexivity. cbn in Hk. lia.
  - reflexivity.
Defined.

(** Against C3 as stated: [delete_post] answered with a success envelope
    that has no [data] returns normally. *)
Lemma delete_post_accepts_envelope_without_data :
  assoc "data" [("success", JBool true)] = None /\
  delete_post sample_env [respond 200 (JObj [("success", JBool true)])]
              (signed_in "t0" "r0") "p1"
  = (Ret VNone, attempt sample_env (signed_in "t0" "r0") "DELETE" "/posts/p1" None None, []).
Proof. split; reflexivity. Qed.

Lemma rejected_envelope_raises_operation_code_witness :
  exists msg,
    perform sample_env (OpGetPost "p1") [respond 200 (JObj [("success", JBool false)])]
            (signed_in "t0" "r0")
    = (Exc (ESMA (sma_error msg "POST_NOT_FOUND")),
       attempt sample_env (signed_in "t0" "r0") "GET" "/posts/p1" None None, []).
Proof.
  exact (rejected_envelope_raises_operation_code sample_env (OpGetPost "p1")
           {| r_status_code := 200; r_text := EmptyString;
              r_json := Some (JObj [("success", JBool false)]) |}
           [] (signed_in "t0" "r0") [("success", JBool false)] "POST_NOT_FOUND"
           eq_refl eq_refl eq_refl eq_refl (or_introl eq_refl)).
Defined.

(** Against C4 as stated: a [refresh_token] called by the user and answered
    403, a status the session hands back, raises and leaves the pair in
    place; the next request succeeds carrying the access token held
    before. *)
Lemma stale_token_sent_after_failed_refresh :
  forallb handed_back [Answered forbidden_response; respond 200 healthy] = true /\
  (exists e, fst (fst failed_refresh_run) = Exc (ESMA e) /\ status_code e = Some 403) /\
  tokens (snd (fst failed_refresh_run)) = Some (held "t0" "r0") /\
  fst (fst after_failed_refresh) = Ret healthy /\
  authorizations (trace (snd (fst after_failed_refresh)))
  = [Some "Bearer t0"; Some "Bearer t0"].
Proof.
  vm_compute. split; [reflexivity|]. split; [eexists; split; reflexivity | repeat split].
Qed.

Lemma failed_refresh_on_401_signs_out_witness :
  exists s,
    _make_request sample_env [Answered unauthorized_response; Answered forbidden_response]
                  (signed_in "t0" "r0") "GET" "/health" None None 0
    = (handle_response unauthorized_response, s, []) /\
    tokens s = None /\
    forall net' m' e' d' p' rc',
      tokens (snd (fst (_make_request sample_env net' s m' e' d' p' rc'))) = None /\
      exists new,
        trace (snd (fst (_make_request sample_env net' s m' e' d' p' rc')))
        = (trace s ++ new)%list /\
        Forall (unauthenticated (config s)) (requests new).
Proof.
  eapply (failed_refresh_on_401_signs_out sample_env unauthorized_response
            [Answered forbidden_response] (signed_in "t0" "r0")
            "GET" "/health" None None 0).
  - reflexivity.
  - reflexivity.
  - vm_compute. reflexivity.
Defined.

(** Against C5 as stated: the invalidation request of [logout] is answered
    403, a status the session hands back, and [logout] raises the error
    mapped from it instead of returning. *)
Lemma logout_raises_when_invalidation_fails :
  forallb handed_back [Answered forbidden_response] = true /\
  status_code (mapped_error forbidden_response []) = Some 403 /\
  fst (fst (_make_request sample_env [Answered forbidden_response] (signed_in "t0" "r0")
                          "POST" "/auth/logout" None None 0))
  = Exc (ESMA (mapped_error forbidden_response [])) /\
  fst (fst (logout sample_env [Answered forbidden_response] (signed_in "t0" "r0")))
  = Exc (ESMA (mapped_error forbidden_response [])).
Proof. repeat split. Qed.

Lemma operations_propagate_request_errors_witness :
  perform sample_env OpLogout [Answered forbidden_response] (signed_in "t0" "r0")
  = (Exc (ESMA (mapped_error forbidden_response [])),
     with_tokens None (attempt sample_env (signed_in "t0" "r0") "POST" "/auth/logout" None None),
     []).
Proof.
  exact (operations_propagate_request_errors sample_env OpLogout
           [Answered forbidden_response] (signed_in "t0" "r0")
           "POST" "/auth/logout" None None
           (ESMA (mapped_error forbidden_response []))
           (attempt sample_env (signed_in "t0" "r0") "POST" "/auth/logout" None None) []
           eq_refl eq_refl eq_refl).
Defined.





Lemma refresh_token_replaces_access_token_only_witness :
  exists t' s n,
    refresh_token sample_env [respond 200 (token_body "t2")] (signed_in "t0" "r0")
    = (Ret t', s, n) /\
    exists t0 resp s0 dat tok,
      tokens (signed_in "t0" "r0") = Some t0 /\
      _make_request sample_env [respond 200 (token_body "t2")] (signed_in "t0" "r0")
        "POST" "/auth/refresh"
        (Some (JObj [("refreshToken", refresh_token_of t0)])) None 0 = (Ret resp, s0, n) /\
      py_item resp "data" = Ret dat /\ py_item dat "token" = Ret tok /\
      t' = {| access_token := tok; refresh_token_of := refresh_token_of t0;
              expires_at := Some (clock sample_env (List.length (trace s0))
                                  + fifteen_minutes) |} /\
      s = with_tokens (Some t') s0 /\
      config s = config (signed_in "t0" "r0").
Proof.
  do 3 eexists. split; [vm_compute; reflexivity|].
  apply (refresh_token_replaces_access_token_only sample_env).
  vm_compute. reflexivity.
Defined.

Lemma refresh_token_needs_refresh_token_witness :
  refresh_token sample_env [respond 200 (token_body "t2")] (new_client default_config)
  = (Exc (ESMA (sma_error "No refresh token available" "NO_REFRESH_TOKEN")),
     new_client default_config, [respond 200 (token_body "t2")]).
Proof.
  apply (refresh_token_needs_refresh_token sample_env). left. reflexivity.
Defined.

(** ** Further properties of the client *)

Section Further.

Variable E : Env.

(** *** URLs *)

Lemma lstrip_idempotent (c : ascii) (s : string) : lstrip c (lstrip c s) = lstrip c s.
Proof.
  induction s as [|a s IH]; cbn; [reflexivity|].
  destruct (Ascii.eqb a c) eqn:Ha; [exact IH|]. cbn. now rewrite Ha.
Qed.

Lemma rstrip_cons (c a : ascii) (s : string) :
  rstrip c (String a s)
  = match rstrip c s with
    | EmptyString => if Ascii.eqb a c then EmptyString else String a EmptyString
    | r => String a r
    end.
Proof. reflexivity. Qed.

Lemma rstrip_idempotent (c : ascii) (s : string) : rstrip c (rstrip c s) = rstrip c s.
Proof.
  induction s as [|a s IH]; [reflexivity|].
  rewrite rstrip_cons. destruct (rstrip c s) as [|b r] eqn:Hr.
  - destruct (Ascii.eqb a c) eqn:Ha; [reflexivity|]. rewrite rstrip_cons. cbn. now rewrite Ha.
  - rewrite rstrip_cons, IH. reflexivity.
Qed.

Lemma rstrip_trailing (c : ascii) (s : string) :
  rstrip c (s ++ String c EmptyString) = rstrip c s.
Proof.
  induction s as [|a s IH].
  - cbn. now rewrite Ascii.eqb_refl.
  - cbn [append]. now rewrite !rstrip_cons, IH.
Qed.

Lemma lstrip_length (c : ascii) (s : string) :
  (String.length (lstrip c s) <= String.length s)%nat.
Proof.
  induction s as [|a s IH]; cbn; [lia|]. destruct (Ascii.eqb a c); cbn; lia.
Qed.

Lemma rstrip_length (c : ascii) (s : string) :
  (String.length (rstrip c s) <= String.length s)%nat.
Proof.
  induction s as [|a s IH]; [cbn; lia|]. rewrite rstrip_cons.
  destruct (rstrip c s); [destruct (Ascii.eqb a c)|]; cbn in *; lia.
Qed.

Lemma length_snoc (s : string) (c : ascii) :
  String.length (s ++ String c EmptyString) = S (String.length s).
Proof. induction s as [|a s IH]; cbn; [reflexivity | now rewrite IH]. Qed.

Lemma rstrip_prefix (s : string) :
  exists n, s = rstrip "/" s ++ slashes n.
Proof.
  induction s as [|a s [n IH]]; [now exists 0%nat|].
  rewrite rstrip_cons. destruct (rstrip "/" s) as [|b r] eqn:Hr.
  - cbn in IH. destruct (Ascii.eqb a "/") eqn:Ha.
    + apply Ascii.eqb_eq in Ha. subst a. exists (S n). cbn. now rewrite <- IH.
    + exists n. cbn. now rewrite <- IH.
  - exists n. cbn [append]. cbn [append] in IH. now rewrite <- IH.
Qed.

Lemma lstrip_suffix (s : string) :
  exists n, s = slashes n ++ lstrip "/" s.
Proof.
  induction s as [|a s [n IH]]; [now exists 0%nat|].
  cbn [lstrip]. destruct (Ascii.eqb a "/") eqn:Ha.
  - apply Ascii.eqb_eq in Ha. subst a. exists (S n). cbn. now rewrite <- IH.
  - now exists 0%nat.
Qed.

(** The URL of a request is the base URL without the slashes at its end,
    one slash, and the endpoint without the slashes at its start: what is
    taken off either side is slashes only, the left part does not end with
    a slash and the right part does not begin with one.  So the URL does not
    depend on a slash at the end of the base URL or at the start of the
    endpoint. *)
Theorem build_url_joins_with_one_slash (self : SDK) (endpoint : string) :
  let l := rstrip "/" (base_url (config self)) in
  let r := lstrip "/" endpoint in
  build_url self endpoint = l ++ "/" ++ r /\
  (exists i, base_url (config self) = l ++ slashes i) /\
  (exists j, endpoint = slashes j ++ r) /\
  (forall t, l <> t ++ "/") /\ (forall t, r <> String "/" t) /\
  build_url self (String "/" endpoint) = build_url self endpoint /\
  build_url (with_base_url (base_url (config self) ++ "/") self) endpoint
  = build_url self endpoint.
Proof.
  cbv zeta. unfold build_url.
  split; [reflexivity|]. split; [apply rstrip_prefix|]. split; [apply lstrip_suffix|].
  split; [|split; [|split]].
  - intros t Ht.
    pose proof (rstrip_idempotent "/" (base_url (config self))) as Hi.
    rewrite Ht in Hi at 1. rewrite rstrip_trailing in Hi.
    pose proof (rstrip_length "/" t) as Hl. rewrite Hi, Ht, length_snoc in Hl. lia.
  - intros t Ht.
    pose proof (lstrip_idempotent "/" endpoint) as Hi.
    rewrite Ht in Hi at 1. cbn in Hi.
    pose proof (lstrip_length "/" t) as Hl. rewrite Hi, Ht in Hl. cbn in Hl. lia.
  - reflexivity.
  - cbn [config with_base_url base_url]. now rewrite rstrip_trailing.
Qed.

(** *** Transport failures that pass *)

Lemma sleeps_app (a b : list event) : sleeps (a ++ b) = (sleeps a ++ sleeps b)%list.
Proof. unfold sleeps. apply flat_map_app. Qed.

Lemma requests_split (a b : list event) :
  requests (a ++ b) = (requests a ++ requests b)%list.
Proof. unfold requests. apply flat_map_app. Qed.

(** Refused attempts within the budget: the call goes on with the next
    answer, having sent one request and slept once per refusal. *)
Lemma refused_within_budget (msgs : list string) :
  forall (self : SDK) (rc : nat) (net : list reply) m e d p,
    (0 <= retry_delay (config self))%Q ->
    Z.of_nat rc + Z.of_nat (List.length msgs) <= retry_attempts (config self) ->
    within_limits E (retry_delay (config self)) rc (List.length msgs) ->
    exists self' new,
      _make_request E (map Refused msgs ++ net) self m e d p rc
      = _make_request E net self' m e d p (rc + List.length msgs) /\
      tokens self' = tokens self /\ config self' = config self /\
      trace self' = (trace self ++ new)%list /\
      List.length (requests new) = List.length msgs /\
      sleeps new = backoff (retry_delay (config self)) rc (List.length msgs).
Proof.
  induction msgs as [|msg msgs IH]; intros self rc net m e d p Hd Hlen Hlim.
  - exists self, []. cbn [map app List.length]. rewrite Nat.add_0_r, app_nil_r.
    repeat split.
  - cbn [map app _make_request]. cbn [List.length] in Hlen, Hlim.
    apply (within_limits_step E) in Hlim as (Ho & Hst & Hlim).
    change (config (attempt E self m e d p)) with (config self).
    replace (Z.of_nat rc <? retry_attempts (config self)) with true
      by (symmetry; apply Z.ltb_lt; lia).
    rewrite Ho, backoff_delay_nonneg, Hst by assumption.
    destruct (IH (record_event
                    (Slept (retry_delay (config self) * inject_Z (2 ^ Z.of_nat rc)))
                    (attempt E self m e d p))
                 (S rc) net m e d p) as (s & new & Hrun & Htok & Hcfg & Htr & Hl & Hs).
    + exact Hd.
    + cbn [config record_event attempt]. lia.
    + exact Hlim.
    + exists s. eexists. rewrite Hrun. cbn [List.length].
      replace (rc + S (List.length msgs))%nat with (S rc + List.length msgs)%nat by lia.
      split; [reflexivity|]. split; [exact Htok|]. split; [exact Hcfg|]. split.
      * rewrite Htr. cbn [trace record_event attempt]. rewrite <- !app_assoc. reflexivity.
      * cbn [app]. split.
        -- cbn [requests flat_map app]. fold (requests new). cbn. now rewrite Hl.
        -- cbn [sleeps flat_map app backoff]. fold (sleeps new). cbn. now rewrite Hs.
Qed.

(** A request that is refused [k] times, [k] within the configured
    attempts, and then answered with a success status returns the decoded
    body of that answer after [k + 1] requests and the first [k] backoff
    delays; the token pair is untouched.  The delays are not negative and,
    like the nesting of the [k] retries, within what the interpreter can
    sleep and nest. *)
Theorem transient_failures_are_retried
    (msgs : list string) (r : Response) (net : list reply) (self : SDK) m e d p :
  (0 <= retry_delay (config self))%Q ->
  Z.of_nat (List.length msgs) <= retry_attempts (config self) ->
  (forall k, (k < List.length msgs)%nat ->
     delay_overflows E (retry_delay (config self)) k = false) ->
  (forall pos k, (k < List.length msgs)%nat -> stack_exhausted E pos k = false) ->
  ok r = true ->
  exists s new,
    _make_request E (map Refused msgs ++ Answered r :: net) self m e d p 0
    = (Ret (parse_body r), s, net) /\
    tokens s = tokens self /\
    trace s = (trace self ++ new)%list /\
    List.length (requests new) = S (List.length msgs) /\
    sleeps new = backoff (retry_delay (config self)) 0 (List.length msgs).
Proof.
  intros Hd Hlen Ho Hst Hok.
  destruct (refused_within_budget msgs self 0 (Answered r :: net) m e d p Hd)
    as (s & new & Hrun & Htok & Hcfg & Htr & Hl & Hs); [lia| |].
  { split; [intros k Hk; apply Ho | intros pos k Hk; apply Hst]; lia. }
  rewrite Hrun, make_request_ok by assumption.
  exists (attempt E s m e d p), (new ++ [Sent (request_for s m e d p (initial_headers E s))])%list.
  split; [reflexivity|]. split; [exact Htok|]. split.
  - cbn [attempt record_event trace]. now rewrite Htr, <- app_assoc.
  - rewrite requests_split, sleeps_app, length_app, Hl, Hs. cbn.
    split; [lia | now rewrite app_nil_r].
Qed.

(** A refused attempt that is to be retried with a delay [time.sleep]
    does not take: when the delay is outside the range of the clock type, or
    [2 ** retry_count] does not convert, the call ends in [OverflowError],
    whatever the sign of the delay; otherwise a negative [retry_delay] ends
    it in [ValueError].  Either way one request went out, nothing was slept,
    nothing is retried and no [SMAError] is raised. *)
Theorem negative_delay_raises_value_error
    (msg : string) (net : list reply) (self : SDK) m e d p rc :
  Z.of_nat rc < retry_attempts (config self) ->
  (delay_overflows E (retry_delay (config self)) rc = true ->
   _make_request E (Refused msg :: net) self m e d p rc
   = (Exc (EOther "OverflowError"), attempt E self m e d p, net)) /\
  (delay_overflows E (retry_delay (config self)) rc = false ->
   (retry_delay (config self) < 0)%Q ->
   _make_request E (Refused msg :: net) self m e d p rc
   = (Exc (EOther "ValueError"), attempt E self m e d p, net)).
Proof.
  intros Hrc. cbn [_make_request].
  change (config (attempt E self m e d p)) with (config self).
  replace (Z.of_nat rc <? retry_attempts (config self)) with true
    by (symmetry; apply Z.ltb_lt; lia).
  split; intros Ho; rewrite Ho; [reflexivity|]. intros Hd.
  destruct (Qle_bool 0 _) eqn:Hq; [|reflexivity].
  exfalso. apply Qle_bool_iff in Hq.
  assert (Hp : (0 < inject_Z (2 ^ Z.of_nat rc))%Q).
  { change 0%Q with (inject_Z 0). rewrite <- Zlt_Qlt. apply Z.pow_pos_nonneg; lia. }
  pose proof (Qmult_lt_compat_r _ _ _ Hp Hd) as Hneg.
  rewrite Qmult_0_l in Hneg.
  exact (Qlt_not_le _ _ Hneg Hq).
Qed.

(** With [retry_attempts] at zero or below nothing is retried: the first
    refusal raises the retryable ["NETWORK_ERROR"] that carries the
    transport's message, after one request and without a sleep. *)
Theorem no_retry_budget_fails_at_once
    (msg : string) (net : list reply) (self : SDK) m e d p :
  retry_attempts (config self) <= 0 ->
  _make_request E (Refused msg :: net) self m e d p 0
  = (Exc (ESMA (network_error msg)), attempt E self m e d p, net) /\
  message (network_error msg) = JStr ("Network error: " ++ msg) /\
  status_code (network_error msg) = None.
Proof.
  intros Hr. cbn [_make_request].
  change (config (attempt E self m e d p)) with (config self).
  replace (Z.of_nat 0 <? retry_attempts (config self)) with false
    by (symmetry; apply Z.ltb_ge; cbn; lia).
  repeat split.
Qed.

(** *** What can be raised *)





(** *** The token pair across a request *)

Lemma same_refresh_trans (a b c : option AuthTokens) :
  same_refresh a b -> same_refresh b c -> same_refresh a c.
Proof.
  destruct a, b, c; cbn; try tauto. intros -> ->. reflexivity.
Qed.

Lemma kept_refl (a : option AuthTokens) : kept a a.
Proof. right. apply same_refresh_refl. Qed.

Lemma kept_none (a : option AuthTokens) : kept a None.
Proof. now left. Qed.

Lemma store_refreshed_kept (response : json) (a : option AuthTokens) (s : SDK) :
  kept a (tokens s) -> kept a (tokens (snd (store_refreshed E response s))).
Proof.
  intros H. unfold store_refreshed.
  destruct (bind _ _) as [tok|x|]; [|exact H|exact H].
  destruct (tokens s) as [t|] eqn:Ht; [|cbn; now rewrite Ht].
  cbn. destruct H as [H|H]; [discriminate H|]. right.
  destruct a as [t0|]; cbn in *; [exact H | contradiction].
Qed.

Lemma make_request_kept (net : list reply) :
  forall self m e d p rc,
    kept (tokens self) (tokens (snd (fst (_make_request E net self m e d p rc)))).
Proof.
  induction net as [|[msg|r] net IH]; intros self m e d p rc.
  - apply kept_refl.
  - cbn [_make_request].
    destruct (Z.of_nat rc <? _); [destruct (delay_overflows _ _ _);
       [|destruct (Qle_bool _ _); [destruct (stack_exhausted _ _ _)|]]|]; cbn [fst snd];
      try apply kept_refl.
    apply (IH (record_event _ (attempt E self m e d p))).
  - destruct ((r_status_code r =? 401) && can_refresh self) eqn:Hc.
    + apply andb_prop in Hc as [H401 Hcan]. apply Z.eqb_eq in H401.
      rewrite make_request_401 by assumption.
      assert (Hr : kept (tokens self)
                     (tokens (snd (fst (refresh_token E net (attempt E self m e d p)))))).
      { unfold refresh_token, refresh_token_with.
        change (tokens (attempt E self m e d p)) with (tokens self).
        destruct (tokens self) as [t|] eqn:Ht; [destruct (truthy _)|]; cbn [fst snd];
          try (cbn [tokens attempt record_event]; rewrite Ht; apply kept_refl).
        pose proof (IH (attempt E self m e d p) "POST" "/auth/refresh"
                       (Some (JObj [("refreshToken", refresh_token_of t)])) None 0%nat)
          as Hk.
        change (tokens (attempt E self m e d p)) with (tokens self) in Hk.
        rewrite Ht in Hk.
        destruct (_make_request E net _ _ _ _ _ _) as [[[resp|x|] s1] n1];
          cbn [fst snd] in *; try exact Hk.
        now apply store_refreshed_kept. }
      destruct (refresh_token E net _) as [[[t'|x|] s1] n1]; cbn [fst snd] in *;
        try apply kept_none; try exact Hr.
      destruct (tokens s1) as [t|] eqn:Hs1; [destruct n1 as [|[?|?] ?]|]; cbn [fst snd];
        try apply kept_none; cbn [tokens record_event]; now rewrite Hs1.
    + rewrite make_request_answered by assumption. apply kept_refl.
Qed.

(** No request gives the client a refresh token it did not have: after
    [_make_request] the client holds no pair or a pair with the refresh
    token it held before; when the call returns a value the pair is still
    there; the configuration is never touched. *)
Theorem request_never_changes_refresh_token
    (net : list reply) (self : SDK) m e d p rc (o : outcome json) (s : SDK) (n : list reply) :
  _make_request E net self m e d p rc = (o, s, n) ->
  (tokens s = None \/ same_refresh (tokens self) (tokens s)) /\
  (forall v, o = Ret v -> same_refresh (tokens self) (tokens s)) /\
  config s = config self.
Proof.
  intros H. split; [|split].
  - pose proof (make_request_kept net self m e d p rc) as Hk. now rewrite H in Hk.
  - intros v ->. now apply (make_request_ret_same_refresh E net _ _ _ _ _ _ _ _ _ H).
  - pose proof (make_request_extends E net self m e d p rc) as [Hc _]. now rewrite H in Hc.
Qed.

(** *** One request per operation *)

Lemma store_refreshed_trace (response : json) (s : SDK) :
  trace (snd (store_refreshed E response s)) = trace s /\
  config (snd (store_refreshed E response s)) = config s.
Proof.
  unfold store_refreshed.
  destruct (bind _ _) as [tok|x|]; [destruct (tokens s)|..]; split; reflexivity.
Qed.

Lemma open_session_trace (failure : SMAError) (response : json) (s : SDK) :
  trace (snd (open_session E failure response s)) = trace s /\
  config (snd (open_session E failure response s)) = config s.
Proof.
  unfold open_session.
  destruct (bind _ _) as [[[dat tok] rt]|x|]; split; reflexivity.
Qed.

Ltac unfold_methods :=
  unfold login, register, logout, get_posts, get_post, create_post, update_post,
    delete_post, publish_post, create_bulk_posts, get_analytics, connect_platform,
    disconnect_platform, check_health, get_current_user, refresh_token.

(** Bring [perform] on an answer with a success status to the tail of the
    method applied to the decoded body. *)
Ltac on_success_status Hok Hreach :=
  cbn [perform request_of]; unfold_methods;
  try (unfold refresh_token_with; cbn in Hreach; unfold can_refresh in Hreach;
       match goal with
       | |- context [tokens ?s] =>
           destruct (tokens s) as [?t|] eqn:?Htok; [|discriminate Hreach]
       end; rewrite Hreach);
  rewrite (make_request_ok E) by exact Hok; cbn [and_then].

(** Every public method whose request is answered with a success status
    has sent exactly one request, the one the method is written for:
    method, endpoint, body and query of [request_of], with the headers built
    on entry.  A batch of posts goes out as one request. *)
Theorem one_request_per_operation
    (op : operation) (r : Response) (net : list reply) (self : SDK) :
  reaches_request op self = true ->
  ok r = true ->
  let '(m, e, d, p) := request_of op self in
  exists o s,
    perform E op (Answered r :: net) self = (o, s, net) /\
    trace s = (trace self ++ [Sent (request_for self m e d p (initial_headers E self))])%list /\
    config s = config self.
Proof.
  intros Hreach Hok.
  destruct op; on_success_status Hok Hreach;
    try (match goal with
         | |- context [open_session E ?f ?resp ?s] =>
             pose proof (open_session_trace f resp s) as [Ht Hc];
             destruct (open_session E f resp s) as [b s']
         | |- context [store_refreshed E ?resp ?s] =>
             pose proof (store_refreshed_trace resp s) as [Ht Hc];
             destruct (store_refreshed E resp s) as [[a|x|] s']
         end; cbn [fst snd] in Ht, Hc; do 2 eexists;
         split; [reflexivity|]; split; [rewrite Ht | rewrite Hc]; reflexivity);
    try (unfold built, plain; do 2 eexists; split; [reflexivity|]; split; reflexivity).
  pose proof (store_refreshed_trace (parse_body r)
                (attempt E self "POST" "/auth/refresh"
                   (Some (JObj [("refreshToken", refresh_token_of t)])) None)) as [Ht Hc].
  destruct (store_refreshed E _ _) as [[a|x|] s']; cbn [fst snd] in Ht, Hc;
    do 2 eexists; (split; [reflexivity|]); split; [rewrite Ht | rewrite Hc | rewrite Ht
      | rewrite Hc | rewrite Ht | rewrite Hc]; reflexivity.
Qed.

(** *** Accepted envelopes *)

Lemma lacks_success_accepted (body : list (string * json)) :
  truthy (member "success" body) = true -> lacks_success (JObj body) = Ret false.
Proof.
  unfold lacks_success, py_get, py_get_default, member. cbn [bind]. now intros ->.
Qed.

Lemma data_of_accepted (failure : SMAError) (body : list (string * json)) (dv : json) :
  truthy (member "success" body) = true ->
  assoc "data" body = Some dv -> truthy dv = true ->
  data_of failure (JObj body) = Ret dv.
Proof.
  unfold data_of, lacks_success_or_data, py_get, py_get_default, py_item, member.
  cbn [bind]. intros -> Hd Hdv. cbn [negb bind]. now rewrite Hd, Hdv.
Qed.

Lemma existsb_eqb_In (k : string) (l : list string) :
  existsb (String.eqb k) l = true <-> In k l.
Proof.
  rewrite existsb_exists. split.
  - intros (x & Hx & Heq). apply String.eqb_eq in Heq. now subst.
  - intros H. exists k. split; [exact H | apply String.eqb_refl].
Qed.

Lemma assoc_some_In (k : string) (m : list (string * json)) :
  (exists v, assoc k m = Some v) <-> In k (map fst m).
Proof.
  induction m as [|[k' v'] m IH]; cbn.
  - split; [intros [v H]; discriminate H | contradiction].
  - destruct (k' =? k)%string eqn:Hk.
    + apply String.eqb_eq in Hk. split; [now left | now exists v'].
    + apply String.eqb_neq in Hk. rewrite IH. split; [now right | now intros [H|H]].
Qed.

(** Building a dataclass from the mapping [m]: it goes through exactly when
    the keys of [m] are the fields, and then every attribute is the member
    of that name; otherwise it is a [TypeError]. *)
Lemma construct_exact_keys (name : string) (fields : list string) (m : list (string * json)) :
  ((forall k, In k (map fst m) <-> In k fields) ->
   construct name fields (JObj m)
   = Ret {| cls := name; attrs := map (fun f => (f, member f m)) fields |}) /\
  (~ (forall k, In k (map fst m) <-> In k fields) ->
   construct name fields (JObj m) = Exc (EOther "TypeError")).
Proof.
  unfold construct.
  destruct (forallb _ m && forallb _ fields) eqn:Hb.
  - split; [intros _; reflexivity|]. intros Hn. exfalso. apply Hn.
    apply andb_prop in Hb as [H1 H2]. rewrite forallb_forall in H1, H2.
    intros k. split.
    + intros Hk. apply in_map_iff in Hk as ([k' v] & <- & Hin).
      apply existsb_eqb_In. exact (H1 _ Hin).
    + intros Hk. apply assoc_some_In. specialize (H2 _ Hk).
      destruct (assoc k m) as [v|]; [now exists v | discriminate H2].
  - split; [|intros _; reflexivity]. intros Hall. exfalso.
    apply andb_false_iff in Hb as [Hb|Hb]; apply not_true_iff_false in Hb; apply Hb;
      apply forallb_forall.
    + intros [k v] Hin. apply existsb_eqb_In. apply Hall.
      apply in_map_iff. now exists (k, v).
    + intros f Hf. apply Hall, assoc_some_In in Hf as [v ->]. reflexivity.
Qed.

(** [get_post], [create_post], [update_post], [get_analytics] and
    [get_current_user] on an accepted envelope: when the keys of [data] are
    exactly the fields of the dataclass the method returns the instance
    whose attributes are the members of [data]; one key more or one key
    less and the method raises [TypeError], not [SMAError]. *)
Theorem records_need_exactly_their_fields
    (op : operation) (name : string) (fields : list string)
    (r : Response) (net : list reply) (self : SDK)
    (body dat : list (string * json)) :
  builds op = Some (name, fields) ->
  ok r = true ->
  r_json r = Some (JObj body) ->
  truthy (member "success" body) = true ->
  assoc "data" body = Some (JObj dat) -> dat <> [] ->
  let '(m, e, d, p) := request_of op self in
  ((forall k, In k (map fst dat) <-> In k fields) ->
   perform E op (Answered r :: net) self
   = (Ret (VInstance {| cls := name; attrs := map (fun f => (f, member f dat)) fields |}),
      attempt E self m e d p, net)) /\
  (~ (forall k, In k (map fst dat) <-> In k fields) ->
   perform E op (Answered r :: net) self
   = (Exc (EOther "TypeError"), attempt E self m e d p, net)).
Proof.
  intros Hb Hok Hjson Hs Hd Hne.
  assert (Hdv : truthy (JObj dat) = true) by (destruct dat; [congruence | reflexivity]).
  assert (Hreach : reaches_request op self = true) by (destruct op; try discriminate Hb; reflexivity).
  destruct (construct_exact_keys name fields dat) as [Hyes Hno].
  destruct op; try discriminate Hb; injection Hb as <- <-;
    on_success_status Hok Hreach; unfold parse_body; rewrite Hjson; unfold built;
    rewrite (data_of_accepted _ body (JObj dat) Hs Hd Hdv); cbn [bind];
    (split; intros H; [rewrite (Hyes H) | rewrite (Hno H)]; reflexivity).
Qed.

(** [publish_post], [create_bulk_posts] and [check_health] hand back the
    [data] member of an accepted envelope as it came, whatever its shape. *)
Theorem data_is_returned_as_it_came
    (op : operation) (r : Response) (net : list reply) (self : SDK)
    (body : list (string * json)) (dv : json) :
  returns_data op = true ->
  ok r = true ->
  r_json r = Some (JObj body) ->
  truthy (member "success" body) = true ->
  assoc "data" body = Some dv -> truthy dv = true ->
  let '(m, e, d, p) := request_of op self in
  perform E op (Answered r :: net) self = (Ret (VJson dv), attempt E self m e d p, net).
Proof.
  intros Hb Hok Hjson Hs Hd Hdv.
  assert (Hreach : reaches_request op self = true) by (destruct op; try discriminate Hb; reflexivity).
  destruct op; try discriminate Hb;
    on_success_status Hok Hreach; unfold parse_body; rewrite Hjson; unfold plain;
    rewrite (data_of_accepted _ body dv Hs Hd Hdv); reflexivity.
Qed.

(** [get_posts], [delete_post] and [disconnect_platform] look at [success]
    only: with a truthy [success], [get_posts] returns the whole envelope and
    the other two return [None], with or without [data]. *)
Theorem success_alone_is_enough
    (op : operation) (r : Response) (net : list reply) (self : SDK)
    (body : list (string * json)) :
  reads_data op = false -> op <> OpLogout ->
  ok r = true ->
  r_json r = Some (JObj body) ->
  truthy (member "success" body) = true ->
  let '(m, e, d, p) := request_of op self in
  perform E op (Answered r :: net) self
  = (Ret (match op with OpGetPosts _ _ _ _ _ _ => VJson (JObj body) | _ => VNone end),
     attempt E self m e d p, net).
Proof.
  intros Hb Hlo Hok Hjson Hs.
  assert (Hreach : reaches_request op self = true) by (destruct op; try discriminate Hb; reflexivity).
  destruct op; try discriminate Hb; try congruence;
    on_success_status Hok Hreach; unfold parse_body; rewrite Hjson;
    rewrite (lacks_success_accepted body Hs); reflexivity.
Qed.

(** *** Opening a session *)

Lemma session_values (failure : SMAError) (body dat : list (string * json)) (tok : json) :
  truthy (member "success" body) = true ->
  assoc "data" body = Some (JObj dat) ->
  assoc "token" dat = Some tok ->
  (bad <- lacks_success_or_data (JObj body) ;;
   if (bad : bool) then Exc (ESMA failure)
   else d <- py_item (JObj body) "data" ;;
        tok <- py_item d "token" ;;
        rt <- py_get d "refreshToken" ;;
        Ret (d, tok, rt))
  = Ret (JObj dat, tok, member "refreshToken" dat).
Proof.
  intros Hs Hd Ht.
  unfold lacks_success_or_data, py_get, py_get_default, py_item, member in *.
  cbn [bind]. rewrite Hs. cbn [negb bind]. rewrite Hd.
  destruct dat as [|kv dat']; [discriminate Ht|]. cbn [truthy negb bind].
  rewrite Ht. reflexivity.
Qed.

(** [login] and [register] on an accepted envelope with a token and a
    well-formed user: the client holds the pair made of the [token], the
    [refreshToken] ([None] when the answer has none) and an expiry fifteen
    minutes from now, whatever it held before, and the caller gets the user
    and that pair. *)
Theorem session_is_opened_with_the_answer
    (op : operation) (r : Response) (net : list reply) (self : SDK)
    (body dat usr : list (string * json)) (tok : json) :
  opens_session op = true ->
  ok r = true ->
  r_json r = Some (JObj body) ->
  truthy (member "success" body) = true ->
  assoc "data" body = Some (JObj dat) ->
  assoc "token" dat = Some tok ->
  assoc "user" dat = Some (JObj usr) ->
  (forall k, In k (map fst usr) <-> In k user_fields) ->
  let '(m, e, d, p) := request_of op self in
  let t := {| access_token := tok; refresh_token_of := member "refreshToken" dat;
              expires_at := Some (clock E (List.length (trace (attempt E self m e d p)))
                                  + fifteen_minutes) |} in
  perform E op (Answered r :: net) self
  = (Ret (VSession {| cls := "User"; attrs := map (fun f => (f, member f usr)) user_fields |} t),
     with_tokens (Some t) (attempt E self m e d p), net).
Proof.
  intros Hb Hok Hjson Hs Hd Ht Hu Hkeys.
  assert (Hreach : reaches_request op self = true) by (destruct op; try discriminate Hb; reflexivity).
  destruct (construct_exact_keys "User" user_fields usr) as [Hyes _].
  destruct op; try discriminate Hb;
    on_success_status Hok Hreach; unfold parse_body; rewrite Hjson; unfold open_session;
    rewrite (session_values _ body dat tok Hs Hd Ht);
    unfold py_item; rewrite Hu; cbn [bind]; rewrite (Hyes Hkeys); reflexivity.
Qed.

(** The pair is stored before the user is built: when the accepted answer
    has a token but no [user], or a [user] whose keys are not the fields of
    [User], [login] and [register] raise [KeyError] resp. [TypeError], and
    the client holds the new pair all the same. *)
Theorem session_is_stored_before_the_user_is_read
    (op : operation) (r : Response) (net : list reply) (self : SDK)
    (body dat : list (string * json)) (tok : json) :
  opens_session op = true ->
  ok r = true ->
  r_json r = Some (JObj body) ->
  truthy (member "success" body) = true ->
  assoc "data" body = Some (JObj dat) ->
  assoc "token" dat = Some tok ->
  let '(m, e, d, p) := request_of op self in
  let t := {| access_token := tok; refresh_token_of := member "refreshToken" dat;
              expires_at := Some (clock E (List.length (trace (attempt E self m e d p)))
                                  + fifteen_minutes) |} in
  (assoc "user" dat = None ->
   perform E op (Answered r :: net) self
   = (Exc (EOther "KeyError"), with_tokens (Some t) (attempt E self m e d p), net)) /\
  (forall usr, assoc "user" dat = Some (JObj usr) ->
     ~ (forall k, In k (map fst usr) <-> In k user_fields) ->
     perform E op (Answered r :: net) self
     = (Exc (EOther "TypeError"), with_tokens (Some t) (attempt E self m e d p), net)).
Proof.
  intros Hb Hok Hjson Hs Hd Ht.
  assert (Hreach : reaches_request op self = true) by (destruct op; try discriminate Hb; reflexivity).
  destruct op; try discriminate Hb;
    on_success_status Hok Hreach; unfold parse_body; rewrite Hjson; unfold open_session;
    rewrite (session_values _ body dat tok Hs Hd Ht); unfold py_item;
    (split;
     [ intros Hu; rewrite Hu; reflexivity
     | intros usr Hu Hkeys; rewrite Hu; cbn [bind];
       destruct (construct_exact_keys "User" user_fields usr) as [_ Hno];
       rewrite (Hno Hkeys); reflexivity ]).
Qed.

(** An accepted answer without a [token] makes [login] and [register] raise
    [KeyError]; the token state of the client is what it was. *)
Theorem session_without_token_is_a_key_error
    (op : operation) (r : Response) (net : list reply) (self : SDK)
    (body dat : list (string * json)) :
  opens_session op = true ->
  ok r = true ->
  r_json r = Some (JObj body) ->
  truthy (member "success" body) = true ->
  assoc "data" body = Some (JObj dat) -> dat <> [] ->
  assoc "token" dat = None ->
  let '(m, e, d, p) := request_of op self in
  perform E op (Answered r :: net) self
  = (Exc (EOther "KeyError"), attempt E self m e d p, net) /\
  tokens (attempt E self m e d p) = tokens self.
Proof.
  intros Hb Hok Hjson Hs Hd Hne Ht.
  assert (Hreach : reaches_request op self = true) by (destruct op; try discriminate Hb; reflexivity).
  destruct op; try discriminate Hb;
    on_success_status Hok Hreach; unfold parse_body; rewrite Hjson; unfold open_session;
    unfold lacks_success_or_data, py_get, py_get_default, py_item, member in *;
    cbn [bind]; rewrite Hs; cbn [negb bind]; rewrite Hd;
    (destruct dat as [|kv dat']; [congruence|]); cbn [truthy negb bind];
    rewrite Ht; split; reflexivity.
Qed.

(** [connect_platform] reads the record under [platformConnection] of
    [data]: with exactly the fields of [PlatformConnection] there it returns
    the instance; when [data] has no such member it raises [KeyError]. *)
Theorem connect_platform_reads_platform_connection
    (platform auth_code redirect_uri : string)
    (r : Response) (net : list reply) (self : SDK)
    (body dat : list (string * json)) :
  ok r = true ->
  r_json r = Some (JObj body) ->
  truthy (member "success" body) = true ->
  assoc "data" body = Some (JObj dat) -> dat <> [] ->
  let s := attempt E self "POST" ("/oauth/connect/" ++ platform)
                   (Some (JObj [("code", JStr auth_code);
                                ("redirectUri", JStr redirect_uri)])) None in
  (forall pc, assoc "platformConnection" dat = Some (JObj pc) ->
     (forall k, In k (map fst pc) <-> In k connection_fields) ->
     connect_platform E (Answered r :: net) self platform auth_code redirect_uri
     = (Ret (VInstance {| cls := "PlatformConnection";
                          attrs := map (fun f => (f, member f pc)) connection_fields |}),
        s, net)) /\
  (assoc "platformConnection" dat = None ->
   connect_platform E (Answered r :: net) self platform auth_code redirect_uri
   = (Exc (EOther "KeyError"), s, net)).
Proof.
  intros Hok Hjson Hs Hd Hne.
  assert (Hdv : truthy (JObj dat) = true) by (destruct dat; [congruence | reflexivity]).
  unfold connect_platform. rewrite (make_request_ok E) by exact Hok. cbn [and_then].
  unfold parse_body. rewrite Hjson.
  rewrite (data_of_accepted _ body (JObj dat) Hs Hd Hdv). cbn [bind]. unfold py_item.
  split.
  - intros pc Hpc Hkeys. rewrite Hpc. cbn [bind].
    destruct (construct_exact_keys "PlatformConnection" connection_fields pc) as [Hyes _].
    rewrite (Hyes Hkeys). reflexivity.
  - intros Hpc. rewrite Hpc. reflexivity.
Qed.

(** *** Bodies that are not envelopes *)

(** A success status with a body that does not decode: the payload that
    stands in for it has a false [success], so every method that reads the
    envelope raises its own error code. *)
Theorem undecodable_success_raises_operation_code
    (op : operation) (r : Response) (net : list reply) (self : SDK) (c : string) :
  ok r = true ->
  r_json r = None ->
  reaches_request op self = true ->
  failure_code op = Some c ->
  let '(m, e, d, p) := request_of op self in
  exists msg,
    perform E op (Answered r :: net) self
    = (Exc (ESMA (sma_error msg c)), attempt E self m e d p, net).
Proof.
  intros Hok Hjson Hreach Hcode.
  destruct op; cbn in Hcode; try discriminate Hcode; injection Hcode as <-;
    on_success_status Hok Hreach; unfold parse_body; rewrite Hjson;
    eexists; reflexivity.
Qed.

(** A success status with a body that decodes to something else than an
    object: every method that reads the envelope raises [AttributeError];
    no [SMAError] is raised and the token state stays. *)
Theorem non_object_body_is_an_attribute_error
    (op : operation) (r : Response) (net : list reply) (self : SDK) (v : json) :
  ok r = true ->
  r_json r = Some v -> not_a_dict v ->
  reaches_request op self = true ->
  op <> OpLogout ->
  let '(m, e, d, p) := request_of op self in
  perform E op (Answered r :: net) self
  = (Exc (EOther "AttributeError"), attempt E self m e d p, net).
Proof.
  intros Hok Hjson Hv Hreach Hlo.
  destruct op; try congruence;
    on_success_status Hok Hreach; unfold parse_body; rewrite Hjson;
    destruct v; try contradiction; reflexivity.
Qed.

(** A failure status with a body that decodes to something else than an
    object, or to an object whose [error] member is not an object, makes
    [_make_request] raise [AttributeError] in place of the mapped
    [SMAError]. *)
Theorem non_object_error_is_an_attribute_error
    (r : Response) (net : list reply) (self : SDK) m e d p rc :
  ok r = false ->
  (r_status_code r =? 401) && can_refresh self = false ->
  (exists v, r_json r = Some v /\ not_a_dict v) \/
  (exists body ev, r_json r = Some (JObj body) /\ assoc "error" body = Some ev /\ not_a_dict ev) ->
  _make_request E (Answered r :: net) self m e d p rc
  = (Exc (EOther "AttributeError"), attempt E self m e d p, net).
Proof.
  intros Hok Hplain H. rewrite (make_request_answered E) by assumption.
  unfold handle_response, parse_body. rewrite Hok. cbn [negb].
  destruct H as [(v & -> & Hv) | (body & ev & -> & Hev & Hv)].
  - destruct v; try contradiction; reflexivity.
  - unfold py_get_default at 1. cbn [bind]. rewrite Hev.
    destruct ev; try contradiction; reflexivity.
Qed.

(** *** Refreshing *)

(** A [refresh_token] called by the user whose request is answered by
    anything but a 401 and that raises leaves the token pair as it was: only
    the 401 handling of [_make_request] clears it. *)
Theorem failed_direct_refresh_keeps_the_pair
    (r : Response) (net : list reply) (self : SDK) (x : exn) (s : SDK) (n : list reply) :
  can_refresh self = true ->
  r_status_code r <> 401 ->
  refresh_token E (Answered r :: net) self = (Exc x, s, n) ->
  tokens s = tokens self /\ n = net /\
  exists rq, trace s = (trace self ++ [Sent rq])%list /\
             rq_url rq = build_url self "/auth/refresh".
Proof.
  intros Hcan H401 H. unfold refresh_token, refresh_token_with in H.
  unfold can_refresh in Hcan. destruct (tokens self) as [t|] eqn:Ht; [|discriminate Hcan].
  rewrite Hcan in H. rewrite (make_request_answered E) in H
    by (apply andb_false_iff; left; now apply Z.eqb_neq).
  destruct (handle_response r) as [resp|y|].
  - unfold store_refreshed in H.
    destruct (bind _ _) as [tok|y|].
    + cbn [tokens attempt record_event] in H. rewrite Ht in H. discriminate H.
    + injection H as _ <- <-. cbn [tokens attempt record_event]. rewrite Ht.
      repeat split. eexists. split; reflexivity.
    + discriminate H.
  - injection H as _ <- <-. cbn [tokens attempt record_event]. rewrite Ht.
    repeat split. eexists. split; reflexivity.
  - discriminate H.
Qed.

(** The refresh inside the 401 handling when [/auth/refresh] answers with
    an accepted envelope that carries a token. *)
Lemma refresh_accepted
    (r1 : Response) (net : list reply) (self : SDK) (t : AuthTokens)
    (body dat : list (string * json)) (tok : json) :
  tokens self = Some t -> truthy (refresh_token_of t) = true ->
  ok r1 = true -> r_json r1 = Some (JObj body) ->
  truthy (member "success" body) = true ->
  assoc "data" body = Some (JObj dat) -> assoc "token" dat = Some tok ->
  let s1 := attempt E self "POST" "/auth/refresh"
                    (Some (JObj [("refreshToken", refresh_token_of t)])) None in
  let t' := {| access_token := tok; refresh_token_of := refresh_token_of t;
               expires_at := Some (clock E (List.length (trace s1)) + fifteen_minutes) |} in
  refresh_token E (Answered r1 :: net) self = (Ret t', with_tokens (Some t') s1, net).
Proof.
  intros Ht Hrt Hok Hjson Hsucc Hdat Htok. cbv zeta.
  unfold refresh_token, refresh_token_with. rewrite Ht, Hrt.
  rewrite (make_request_ok E) by assumption.
  unfold parse_body. rewrite Hjson.
  unfold store_refreshed, lacks_success_or_data, py_get, py_get_default, py_item.
  unfold member in Hsucc. cbn [bind]. rewrite Hsucc. cbn [negb bind]. rewrite Hdat.
  destruct dat as [|kv dat']; [discriminate Htok|]. cbn [truthy negb bind]. rewrite Htok.
  cbn [tokens attempt record_event]. rewrite Ht. reflexivity.
Qed.

(** The reissue after a refresh is the first request again with the
    [Authorization] header set to the new token: same method, URL, body,
    query and timeout, and every other header, the [X-Request-ID] and an
    [X-API-Key] included, as in the first attempt. *)
Theorem reissue_differs_in_authorization_only
    (r r1 r2 : Response) (net : list reply) (self : SDK) (t : AuthTokens) m e d p rc
    (body dat : list (string * json)) (tok : string) :
  r_status_code r = 401 ->
  tokens self = Some t -> truthy (refresh_token_of t) = true ->
  ok r1 = true -> r_json r1 = Some (JObj body) ->
  truthy (member "success" body) = true ->
  assoc "data" body = Some (JObj dat) -> assoc "token" dat = Some (JStr tok) ->
  exists s rq1 rq2 rq3,
    _make_request E (Answered r :: Answered r1 :: Answered r2 :: net) self m e d p rc
    = (handle_response r2, s, net) /\
    trace s = (trace self ++ [Sent rq1; Sent rq2; Sent rq3])%list /\
    rq_method rq3 = rq_method rq1 /\ rq_url rq3 = rq_url rq1 /\
    rq_json rq3 = rq_json rq1 /\ rq_params rq3 = rq_params rq1 /\
    rq_timeout rq3 = rq_timeout rq1 /\
    header "Authorization" (rq_headers rq3) = Some ("Bearer " ++ tok) /\
    (forall k, k <> "Authorization" ->
       header k (rq_headers rq3) = header k (rq_headers rq1)).
Proof.
  intros H401 Ht Hrt Hok Hjson Hsucc Hdat Htok.
  assert (Hcan : can_refresh self = true) by (unfold can_refresh; now rewrite Ht).
  rewrite (make_request_401 E) by assumption.
  pose proof (refresh_accepted r1 (Answered r2 :: net) (attempt E self m e d p) t
                body dat (JStr tok) Ht Hrt Hok Hjson Hsucc Hdat Htok) as Hr.
  cbv zeta in Hr. rewrite Hr. cbn [tokens with_tokens access_token].
  rewrite (py_str_string E).
  do 4 eexists. split; [reflexivity|]. split.
  - cbn [trace record_event with_tokens attempt]. rewrite <- !app_assoc. reflexivity.
  - cbn [rq_method rq_url rq_json rq_params rq_timeout rq_headers request_for].
    repeat split.
    + apply header_dict_set_same.
    + intros k Hk. now apply header_dict_set_other.
Qed.

(** When the refresh went through but the reissue is refused by the
    transport, the same handler takes it for a failed refresh: the token
    pair that was just refreshed is dropped, the error mapped from the
    first 401 is raised, and the refusal is not retried. *)
Theorem refused_reissue_drops_the_refreshed_pair
    (r r1 : Response) (msg : string) (net : list reply) (self : SDK) (t : AuthTokens)
    m e d p rc (body dat : list (string * json)) (tok : json) :
  r_status_code r = 401 ->
  tokens self = Some t -> truthy (refresh_token_of t) = true ->
  ok r1 = true -> r_json r1 = Some (JObj body) ->
  truthy (member "success" body) = true ->
  assoc "data" body = Some (JObj dat) -> assoc "token" dat = Some tok ->
  exists s,
    _make_request E (Answered r :: Answered r1 :: Refused msg :: net) self m e d p rc
    = (handle_response r, s, net) /\
    tokens s = None /\
    List.length (requests (trace s)) = (List.length (requests (trace self)) + 3)%nat /\
    sleeps (trace s) = sleeps (trace self).
Proof.
  intros H401 Ht Hrt Hok Hjson Hsucc Hdat Htok.
  assert (Hcan : can_refresh self = true) by (unfold can_refresh; now rewrite Ht).
  rewrite (make_request_401 E) by assumption.
  pose proof (refresh_accepted r1 (Refused msg :: net) (attempt E self m e d p) t
                body dat tok Ht Hrt Hok Hjson Hsucc Hdat Htok) as Hr.
  cbv zeta in Hr. rewrite Hr. cbn [tokens with_tokens].
  eexists. split; [reflexivity|]. split; [reflexivity|].
  cbn [trace record_event with_tokens attempt].
  rewrite !requests_split, !sleeps_app, !length_app. cbn. split; [lia|].
  now rewrite !app_nil_r.
Qed.

(** *** Without a token pair *)

Lemma and_then_state {A B : Type} (x : outcome A * SDK * list reply)
    (k : A -> SDK -> outcome B * SDK) (P : SDK -> Prop) :
  P (snd (fst x)) ->
  (forall a s, P s -> P (snd (k a s))) ->
  P (snd (fst (and_then x k))).
Proof.
  intros Hx Hk. destruct x as [[[a|e|] s] n]; cbn [and_then fst snd] in *;
    try exact Hx.
  specialize (Hk a s Hx). destruct (k a s) as [b s']. exact Hk.
Qed.

(** The state a method leaves, for a property [P] of client states that
    holds after the request, is kept by the bookkeeping of the methods that
    do not open a session, and holds for the client as it is. *)
Lemma perform_state (P : SDK -> Prop) (op : operation) (net : list reply) (self : SDK) :
  opens_session op = false ->
  P self ->
  (forall m e d p, P (snd (fst (_make_request E net self m e d p 0)))) ->
  (forall response s, P s -> P (snd (store_refreshed E response s))) ->
  (forall s, P s -> P (with_tokens None s)) ->
  P (snd (fst (perform E op net self))).
Proof.
  intros Hop Hself Hreq Hstore Hclear.
  destruct op; try discriminate Hop; cbn [perform]; unfold_methods;
    try (apply and_then_state; [apply Hreq | intros a s Hs; exact Hs]).
  - (* refresh_token *)
    apply and_then_state; [|intros a s Hs; exact Hs].
    unfold refresh_token_with.
    destruct (tokens self) as [t|]; [destruct (truthy _)|]; cbn [fst snd]; try exact Hself.
    specialize (Hreq "POST" "/auth/refresh"
                     (Some (JObj [("refreshToken", refresh_token_of t)])) None).
    destruct (_make_request E net _ _ _ _ _ _) as [[[resp|x|] s1] n1];
      cbn [fst snd] in *; try exact Hreq.
    now apply Hstore.
  - (* logout *)
    specialize (Hreq "POST" "/auth/logout" None None).
    destruct (_make_request E net _ _ _ _ _ _) as [[[resp|x|] s1] n1];
      cbn [fst snd] in *; now apply Hclear.
Qed.

(** No method changes the configuration of the client, and none takes back
    what it did: the trace after a call continues the trace before. *)
Theorem configuration_is_never_changed (op : operation) (net : list reply) (self : SDK) :
  config (snd (fst (perform E op net self))) = config self /\
  exists new, trace (snd (fst (perform E op net self))) = (trace self ++ new)%list.
Proof.
  change (extends self (snd (fst (perform E op net self)))).
  destruct (opens_session op) eqn:Hop.
  - destruct op; try discriminate Hop; cbn [perform]; unfold_methods;
      (apply and_then_state;
       [ apply make_request_extends
       | intros a s Hs;
         match goal with
         | |- context [open_session E ?f a s] =>
             pose proof (open_session_trace f a s) as [Ht Hc]
         end;
         destruct Hs as [Hcs [new Htr]]; split;
         [ now rewrite Hc | exists new; now rewrite Ht ] ]).
  - apply perform_state; try assumption.
    + apply extends_refl.
    + intros. apply make_request_extends.
    + intros response s Hs. now apply store_refreshed_extends.
    + intros s Hs. exact Hs.
Qed.

(** A client without a token pair stays without one through every method
    but [login] and [register], and none of the requests it sends carries an
    [Authorization] header: they carry the API key when one is configured
    and no authentication otherwise. *)
Theorem signed_out_client_stays_signed_out
    (op : operation) (net : list reply) (self : SDK) :
  opens_session op = false ->
  tokens self = None ->
  tokens (snd (fst (perform E op net self))) = None /\
  exists new,
    trace (snd (fst (perform E op net self))) = (trace self ++ new)%list /\
    Forall (unauthenticated (config self)) (requests new).
Proof.
  intros Hop Ht.
  apply (perform_state
           (fun s => tokens s = None /\
                     exists new, trace s = (trace self ++ new)%list /\
                                 Forall (unauthenticated (config self)) (requests new)));
    try assumption.
  - split; [exact Ht|]. exists []. rewrite app_nil_r. split; [reflexivity | constructor].
  - intros. now apply make_request_signed_out.
  - intros response s [Hs Hrest]. unfold store_refreshed.
    destruct (bind _ _) as [tok|x|]; [rewrite Hs|..]; cbn [snd]; split; assumption.
  - intros s [Hs Hrest]. split; [reflexivity | exact Hrest].
Qed.

(** After [logout], however its request went, the requests of the client
    carry no [Authorization] header until a session is opened again. *)
Theorem requests_after_logout_are_unauthenticated
    (net : list reply) (self : SDK) (op : operation) (net' : list reply) :
  opens_session op = false ->
  let s := snd (fst (logout E net self)) in
  tokens (snd (fst (perform E op net' s))) = None /\
  exists new,
    trace (snd (fst (perform E op net' s))) = (trace s ++ new)%list /\
    Forall (unauthenticated (config self)) (requests new).
Proof.
  intros Hop s.
  assert (Hs : tokens s = None /\ config s = config self).
  { subst s. unfold logout.
    pose proof (make_request_extends E net self "POST" "/auth/logout" None None 0%nat)
      as [Hc _].
    destruct (_make_request E net self "POST" "/auth/logout" None None 0)
      as [[[v|x|] s1] n]; cbn [fst snd] in *; split; assumption || reflexivity. }
  destruct Hs as [Hs Hc]. rewrite <- Hc.
  apply (perform_state
           (fun s' => tokens s' = None /\
                      exists new, trace s' = (trace s ++ new)%list /\
                                  Forall (unauthenticated (config s)) (requests new)));
    try assumption.
  - split; [exact Hs|]. exists []. rewrite app_nil_r. split; [reflexivity | constructor].
  - intros. now apply make_request_signed_out.
  - intros response s' [Hs' Hrest]. unfold store_refreshed.
    destruct (bind _ _) as [tok|x|]; [rewrite Hs'|..]; cbn [snd]; split; assumption.
  - intros s' [Hs' Hrest]. split; [reflexivity | exact Hrest].
Qed.

End Further.

(** *** Sample runs of the further properties *)

Lemma transient_failures_are_retried_witness :
  exists s new,
    _make_request sample_env (map Refused ["a"; "b"] ++ [Answered (answer 200 healthy)])
                  (new_client default_config) "GET" "/health" None None 0
    = (Ret (parse_body (answer 200 healthy)), s, []) /\
    tokens s = None /\
    trace s = ([] ++ new)%list /\
    List.length (requests new) = 3%nat /\
    sleeps new = backoff 1%Q 0 2.
Proof.
  apply (transient_failures_are_retried sample_env ["a"; "b"] (answer 200 healthy) []
           (new_client default_config) "GET" "/health" None None).
  - unfold Qle. cbn. lia.
  - cbn. lia.
  - intros k Hk. destruct k as [|[|k]]; try reflexivity. cbn in Hk. lia.
  - intros pos k Hk. destruct k as [|[|k]]; try reflexivity. cbn in Hk. lia.
  - reflexivity.
Defined.

Lemma negative_delay_raises_value_error_witness :
  _make_request sample_env [Refused "down"] (new_client hasty_config)
                "GET" "/health" None None 0
  = (Exc (EOther "ValueError"),
     attempt sample_env (new_client hasty_config) "GET" "/health" None None, []) /\
  _make_request sample_env [Refused "down"] (new_client eternal_config)
                "GET" "/health" None None 0
  = (Exc (EOther "OverflowError"),
     attempt sample_env (new_client eternal_config) "GET" "/health" None None, []).
Proof.
  split.
  - apply (proj2 (negative_delay_raises_value_error sample_env "down" []
                    (new_client hasty_config) "GET" "/health" None None 0%nat
                    ltac:(cbn; lia))).
    + reflexivity.
    + unfold Qlt. cbn. lia.
  - apply (proj1 (negative_delay_raises_value_error sample_env "down" []
                    (new_client eternal_config) "GET" "/health" None None 0%nat
                    ltac:(cbn; lia))).
    reflexivity.
Defined.

Lemma no_retry_budget_fails_at_once_witness :
  _make_request sample_env [Refused "down"] (new_client single_shot_config)
                "GET" "/health" None None 0
  = (Exc (ESMA (network_error "down")),
     attempt sample_env (new_client single_shot_config) "GET" "/health" None None, []) /\
  message (network_error "down") = JStr "Network error: down" /\
  status_code (network_error "down") = None.
Proof.
  apply (no_retry_budget_fails_at_once sample_env "down" [] (new_client single_shot_config)).
  cbn. lia.
Defined.


Lemma request_never_changes_refresh_token_witness :
  exists o s n,
    _make_request sample_env
      [Answered unauthorized_response; respond 200 (token_body "t2"); respond 200 healthy]
      (signed_in "t0" "r0") "GET" "/health" None None 0 = (o, s, n) /\
    (tokens s = None \/ same_refresh (tokens (signed_in "t0" "r0")) (tokens s)) /\
    (forall v, o = Ret v -> same_refresh (tokens (signed_in "t0" "r0")) (tokens s)) /\
    config s = config (signed_in "t0" "r0").
Proof.
  do 3 eexists. split; [vm_compute; reflexivity|].
  refine (request_never_changes_refresh_token sample_env
            [Answered unauthorized_response; respond 200 (token_body "t2");
             respond 200 healthy]
            (signed_in "t0" "r0") "GET" "/health" None None 0%nat _ _ _ _).
  vm_compute. reflexivity.
Defined.

Lemma one_request_per_operation_witness :
  exists o s,
    perform sample_env (OpCreateBulkPosts two_posts) [Answered (answer 200 healthy)]
            (signed_in "t0" "r0") = (o, s, []) /\
    trace s
    = (trace (signed_in "t0" "r0")
       ++ [Sent (request_for (signed_in "t0" "r0") "POST" "/posts/bulk"
                   (Some (JObj [("posts", JArr two_posts)])) None
                   (initial_headers sample_env (signed_in "t0" "r0")))])%list /\
    config s = config (signed_in "t0" "r0").
Proof.
  exact (one_request_per_operation sample_env (OpCreateBulkPosts two_posts)
           (answer 200 healthy) [] (signed_in "t0" "r0") eq_refl eq_refl).
Defined.

Lemma records_need_exactly_their_fields_witness :
  perform sample_env OpGetCurrentUser
          [Answered (answer 200 (JObj [("success", JBool true); ("data", JObj user_members)]))]
          (signed_in "t0" "r0")
  = (Ret (VInstance {| cls := "User";
                       attrs := map (fun f => (f, member f user_members)) user_fields |}),
     attempt sample_env (signed_in "t0" "r0") "GET" "/auth/me" None None, []).
Proof.
  apply (proj1 (records_need_exactly_their_fields sample_env OpGetCurrentUser
                  "User" user_fields
                  (answer 200 (JObj [("success", JBool true); ("data", JObj user_members)]))
                  [] (signed_in "t0" "r0")
                  [("success", JBool true); ("data", JObj user_members)] user_members
                  eq_refl eq_refl eq_refl eq_refl eq_refl ltac:(discriminate))).
  intros k. reflexivity.
Defined.

Lemma data_is_returned_as_it_came_witness :
  perform sample_env OpCheckHealth [Answered (answer 200 healthy)] (signed_in "t0" "r0")
  = (Ret (VJson (JObj [("status", JStr "ok")])),
     attempt sample_env (signed_in "t0" "r0") "GET" "/health" None None, []).
Proof.
  exact (data_is_returned_as_it_came sample_env OpCheckHealth (answer 200 healthy) []
           (signed_in "t0" "r0")
           [("success", JBool true); ("data", JObj [("status", JStr "ok")])]
           (JObj [("status", JStr "ok")])
           eq_refl eq_refl eq_refl eq_refl eq_refl eq_refl).
Defined.

Lemma success_alone_is_enough_witness :
  perform sample_env (OpDisconnectPlatform "facebook")
          [Answered (answer 200 (JObj [("success", JBool true)]))] (signed_in "t0" "r0")
  = (Ret VNone,
     attempt sample_env (signed_in "t0" "r0") "DELETE" "/oauth/disconnect/facebook" None None,
     []).
Proof.
  apply (success_alone_is_enough sample_env (OpDisconnectPlatform "facebook")
           (answer 200 (JObj [("success", JBool true)])) [] (signed_in "t0" "r0")
           [("success", JBool true)]); try reflexivity.
  discriminate.
Defined.

Lemma session_is_opened_with_the_answer_witness :
  perform sample_env (OpLogin "a@example.com" "pw")
          [Answered (answer 200 (JObj [("success", JBool true);
                                       ("data", JObj [("token", JStr "t1");
                                                      ("user", JObj user_members)])]))]
          (new_client default_config)
  = (Ret (VSession {| cls := "User";
                      attrs := map (fun f => (f, member f user_members)) user_fields |}
                   {| access_token := JStr "t1"; refresh_token_of := JNull;
                      expires_at := Some (1000000 + fifteen_minutes) |}),
     with_tokens (Some {| access_token := JStr "t1"; refresh_token_of := JNull;
                          expires_at := Some (1000000 + fifteen_minutes) |})
                 (attempt sample_env (new_client default_config) "POST" "/auth/login"
                          (Some (JObj [("email", JStr "a@example.com");
                                       ("password", JStr "pw")])) None),
     []).
Proof.
  apply (session_is_opened_with_the_answer sample_env (OpLogin "a@example.com" "pw")
           (answer 200 (JObj [("success", JBool true);
                              ("data", JObj [("token", JStr "t1");
                                             ("user", JObj user_members)])]))
           [] (new_client default_config)
           [("success", JBool true);
            ("data", JObj [("token", JStr "t1"); ("user", JObj user_members)])]
           [("token", JStr "t1"); ("user", JObj user_members)] user_members (JStr "t1"));
    try reflexivity; intros k; reflexivity.
Defined.

Lemma session_is_stored_before_the_user_is_read_witness :
  perform sample_env (OpRegister "a@example.com" "pw" "A")
          [Answered (answer 200 (JObj [("success", JBool true);
                                       ("data", JObj [("token", JStr "t1");
                                                      ("refreshToken", JStr "r1")])]))]
          (new_client default_config)
  = (Exc (EOther "KeyError"),
     with_tokens (Some {| access_token := JStr "t1"; refresh_token_of := JStr "r1";
                          expires_at := Some (1000000 + fifteen_minutes) |})
                 (attempt sample_env (new_client default_config) "POST" "/auth/register"
                          (Some (JObj [("email", JStr "a@example.com");
                                       ("password", JStr "pw"); ("name", JStr "A")])) None),
     []).
Proof.
  apply (proj1 (session_is_stored_before_the_user_is_read sample_env
                  (OpRegister "a@example.com" "pw" "A")
                  (answer 200 (JObj [("success", JBool true);
                                     ("data", JObj [("token", JStr "t1");
                                                    ("refreshToken", JStr "r1")])]))
                  [] (new_client default_config)
                  [("success", JBool true);
                   ("data", JObj [("token", JStr "t1"); ("refreshToken", JStr "r1")])]
                  [("token", JStr "t1"); ("refreshToken", JStr "r1")] (JStr "t1")
                  eq_refl eq_refl eq_refl eq_refl eq_refl eq_refl)).
  reflexivity.
Defined.

Lemma session_without_token_is_a_key_error_witness :
  perform sample_env (OpLogin "a@example.com" "pw")
          [Answered (answer 200 (JObj [("success", JBool true);
                                       ("data", JObj [("user", JObj user_members)])]))]
          (signed_in "t0" "r0")
  = (Exc (EOther "KeyError"),
     attempt sample_env (signed_in "t0" "r0") "POST" "/auth/login"
             (Some (JObj [("email", JStr "a@example.com"); ("password", JStr "pw")])) None,
     []) /\
  tokens (attempt sample_env (signed_in "t0" "r0") "POST" "/auth/login"
                  (Some (JObj [("email", JStr "a@example.com"); ("password", JStr "pw")]))
                  None)
  = tokens (signed_in "t0" "r0").
Proof.
  apply (session_without_token_is_a_key_error sample_env (OpLogin "a@example.com" "pw")
           (answer 200 (JObj [("success", JBool true);
                              ("data", JObj [("user", JObj user_members)])]))
           [] (signed_in "t0" "r0")
           [("success", JBool true); ("data", JObj [("user", JObj user_members)])]
           [("user", JObj user_members)]); try reflexivity; discriminate.
Defined.

Lemma undecodable_success_raises_operation_code_witness :
  exists msg,
    perform sample_env (OpGetPost "p1") [Answered plain_text_response] (signed_in "t0" "r0")
    = (Exc (ESMA (sma_error msg "POST_NOT_FOUND")),
       attempt sample_env (signed_in "t0" "r0") "GET" "/posts/p1" None None, []).
Proof.
  exact (undecodable_success_raises_operation_code sample_env (OpGetPost "p1")
           plain_text_response [] (signed_in "t0" "r0") "POST_NOT_FOUND"
           eq_refl eq_refl eq_refl eq_refl).
Defined.

Lemma non_object_body_is_an_attribute_error_witness :
  perform sample_env OpCheckHealth [Answered (answer 200 (JArr []))] (signed_in "t0" "r0")
  = (Exc (EOther "AttributeError"),
     attempt sample_env (signed_in "t0" "r0") "GET" "/health" None None, []).
Proof.
  apply (non_object_body_is_an_attribute_error sample_env OpCheckHealth
           (answer 200 (JArr [])) [] (signed_in "t0" "r0") (JArr []));
    try reflexivity; try exact I; discriminate.
Defined.

Lemma non_object_error_is_an_attribute_error_witness :
  _make_request sample_env [Answered (answer 404 (JObj [("error", JStr "Not found")]))]
                (new_client default_config) "GET" "/health" None None 0
  = (Exc (EOther "AttributeError"),
     attempt sample_env (new_client default_config) "GET" "/health" None None, []).
Proof.
  apply (non_object_error_is_an_attribute_error sample_env
           (answer 404 (JObj [("error", JStr "Not found")])) [] (new_client default_config)).
  - reflexivity.
  - reflexivity.
  - right. exists [("error", JStr "Not found")], (JStr "Not found").
    split; [reflexivity|]. split; [reflexivity | exact I].
Defined.

Lemma failed_direct_refresh_keeps_the_pair_witness :
  exists x s n,
    refresh_token sample_env [Answered forbidden_response] (signed_in "t0" "r0")
    = (Exc x, s, n) /\
    tokens s = tokens (signed_in "t0" "r0") /\ n = [] /\
    exists rq, trace s = (trace (signed_in "t0" "r0") ++ [Sent rq])%list /\
               rq_url rq = build_url (signed_in "t0" "r0") "/auth/refresh".
Proof.
  do 3 eexists. split; [vm_compute; reflexivity|].
  apply (failed_direct_refresh_keeps_the_pair sample_env forbidden_response []
           (signed_in "t0" "r0")
           (ESMA (mapped_error forbidden_response []))).
  - reflexivity.
  - discriminate.
  - vm_compute. reflexivity.
Defined.

Lemma reissue_differs_in_authorization_only_witness :
  exists s rq1 rq2 rq3,
    _make_request sample_env
      [Answered unauthorized_response; Answered (answer 200 (token_body "t2"));
       Answered (answer 200 healthy)]
      (signed_in "t0" "r0") "GET" "/health" None None 0
    = (handle_response (answer 200 healthy), s, []) /\
    trace s = (trace (signed_in "t0" "r0") ++ [Sent rq1; Sent rq2; Sent rq3])%list /\
    rq_method rq3 = rq_method rq1 /\ rq_url rq3 = rq_url rq1 /\
    rq_json rq3 = rq_json rq1 /\ rq_params rq3 = rq_params rq1 /\
    rq_timeout rq3 = rq_timeout rq1 /\
    header "Authorization" (rq_headers rq3) = Some ("Bearer " ++ "t2") /\
    (forall k, k <> "Authorization" ->
       header k (rq_headers rq3) = header k (rq_headers rq1)).
Proof.
  apply (reissue_differs_in_authorization_only sample_env unauthorized_response
           (answer 200 (token_body "t2")) (answer 200 healthy) [] (signed_in "t0" "r0")
           (held "t0" "r0") "GET" "/health" None None 0%nat
           [("success", JBool true); ("data", JObj [("token", JStr "t2")])]
           [("token", JStr "t2")] "t2"); reflexivity.
Defined.

Lemma refused_reissue_drops_the_refreshed_pair_witness :
  exists s,
    _make_request sample_env
      [Answered unauthorized_response; Answered (answer 200 (token_body "t2"));
       Refused "down"]
      (signed_in "t0" "r0") "GET" "/health" None None 0
    = (handle_response unauthorized_response, s, []) /\
    tokens s = None /\
    List.length (requests (trace s))
    = (List.length (requests (trace (signed_in "t0" "r0"))) + 3)%nat /\
    sleeps (trace s) = sleeps (trace (signed_in "t0" "r0")).
Proof.
  apply (refused_reissue_drops_the_refreshed_pair sample_env unauthorized_response
           (answer 200 (token_body "t2")) "down" [] (signed_in "t0" "r0")
           (held "t0" "r0") "GET" "/health" None None 0%nat
           [("success", JBool true); ("data", JObj [("token", JStr "t2")])]
           [("token", JStr "t2")] (JStr "t2")); reflexivity.
Defined.

Lemma signed_out_client_stays_signed_out_witness :
  tokens (snd (fst (perform sample_env OpCheckHealth [Answered (answer 200 healthy)]
                            key_client))) = None /\
  exists new,
    trace (snd (fst (perform sample_env OpCheckHealth [Answered (answer 200 healthy)]
                             key_client)))
    = (trace key_client ++ new)%list /\
    Forall (unauthenticated (config key_client)) (requests new).
Proof.
  apply (signed_out_client_stays_signed_out sample_env OpCheckHealth
           [Answered (answer 200 healthy)] key_client); reflexivity.
Defined.

Lemma requests_after_logout_are_unauthenticated_witness :
  tokens (snd (fst (perform sample_env OpCheckHealth [Answered (answer 200 healthy)]
                            (snd (fst (logout sample_env [Answered forbidden_response]
                                              (signed_in "t0" "r0"))))))) = None /\
  exists new,
    trace (snd (fst (perform sample_env OpCheckHealth [Answered (answer 200 healthy)]
                             (snd (fst (logout sample_env [Answered forbidden_response]
                                               (signed_in "t0" "r0")))))))
    = (trace (snd (fst (logout sample_env [Answered forbidden_response]
                               (signed_in "t0" "r0")))) ++ new)%list /\
    Forall (unauthenticated (config (signed_in "t0" "r0"))) (requests new).
Proof.
  exact (requests_after_logout_are_unauthenticated sample_env
           [Answered forbidden_response] (signed_in "t0" "r0") OpCheckHealth
           [Answered (answer 200 healthy)] eq_refl).
Defined.

Lemma connect_platform_reads_platform_connection_witness :
  connect_platform sample_env
    [Answered (answer 200 (JObj [("success", JBool true);
                                 ("data", JObj [("connected", JBool true)])]))]
    (signed_in "t0" "r0") "facebook" "code" "http://localhost/cb"
  = (Exc (EOther "KeyError"),
     attempt sample_env (signed_in "t0" "r0") "POST" ("/oauth/connect/" ++ "facebook")
             (Some (JObj [("code", JStr "code"); ("redirectUri", JStr "http://localhost/cb")]))
             None,
     []).
Proof.
  apply (proj2 (connect_platform_reads_platform_connection sample_env
                  "facebook" "code" "http://localhost/cb"
                  (answer 200 (JObj [("success", JBool true);
                                     ("data", JObj [("connected", JBool true)])]))
                  [] (signed_in "t0" "r0")
                  [("success", JBool true); ("data", JObj [("connected", JBool true)])]
                  [("connected", JBool true)]
                  eq_refl eq_refl eq_refl eq_refl ltac:(discriminate))).
  reflexivity.
Defined.
